(** * SafeEvaluator and CalculatorApp: the evaluator and the callbacks of calculator.py

  A shallow embedding of class [SafeEvaluator] (calculator.py, lines 8-89),
  of the callbacks of class [CalculatorApp] (lines 312-454), and of the
  part of the Python runtime they call into.

  - Module [ast]: the expression trees that [ast.parse(.., mode='eval')]
    hands to [_eval], following Python's abstract grammar.
  - Module [py]: exceptions, the outcome of a computation that may raise,
    and the run-time values the evaluator manipulates.
  - Class [Host]: the services of the interpreter that are not written
    out here: the parser, the transcendental functions of the C library,
    and the arithmetic of floats and complex numbers beyond the four
    IEEE operations.
  - Modules [number], [operator_], [math] and [builtins]: conversions
    between numbers, the functions of Python's [operator] module that the
    evaluator keeps in [self.ops] (named by the constructors of
    [op.function]), and the functions of [math] and the built-in
    functions it puts in its environment.
  - Module [SafeEvaluator]: [ops], [_build_env], [_eval] and [eval].
  - Module [sample]: a host on which the evaluator can be run.
  - Modules [walk] and [division]: the vocabulary of the properties.
  - Module [str_]: the string methods the application uses. Class
    [Desktop]: the conversions between numbers and strings that are left
    to the interpreter. Module [display]: [format_number].
  - Module [CalculatorApp]: the state of the application (its attributes
    and the contents of its widgets, not their appearance), its methods
    as functions from a state to a result and a state, and the states
    the callbacks can reach.
  - Modules [whitelist] and [reference]: the test a node passes in
    [_eval], and the integer an integer expression denotes.
  - Modules [sample_desktop] and [sample_more]: a desktop, and the sample
    host with a few more sources.

  Integers are unbounded ([Z]); floats are IEEE binary64 numbers (Rocq's
  primitive floats); an exception is its class, its message and its cause.
  The recursion limit of the interpreter is the first argument of [_eval]:
  the number of nested activations of [_eval] still allowed.

  The interpreter modelled is CPython 3.9 to 3.13: every literal is an
  [ast.Constant], and [ast.Num] is the deprecated alias whose instance
  check accepts a [Constant] holding an [int], [float] or [complex] that
  is not a [bool]. *)

From Stdlib Require Import ZArith Bool List DecimalString.
From Stdlib Require Import Floats.
From stdpp Require Import base option list gmap strings.

Import ListNotations.

Set Warnings "-register-all,-inexact-float".

(* ===================================================================== *)
(** * Syntax trees *)
(* ===================================================================== *)

Module ast.

(** The payload of a [Constant] node. An imaginary literal such as [2j]
    is the complex number with real part zero. *)
Inductive constant : Type :=
| CInt (n : Z)
| CFloat (x : float)
| CComplex (imag : float)
| CBool (b : bool)
| CStr (s : string)
| CBytes (s : string)
| CNone
| CEllipsis.

(** [operator], [unaryop], [boolop] and [cmpop] of the abstract grammar. *)
Inductive operator : Type :=
| Add | Sub | Mult | MatMult | Div | Mod | Pow
| LShift | RShift | BitOr | BitXor | BitAnd | FloorDiv.

Inductive unaryop : Type := Invert | Not | UAdd | USub.

Inductive boolop : Type := And | Or.

Inductive cmpop : Type :=
| Eq | NotEq | Lt | LtE | Gt | GtE | Is | IsNot | In | NotIn.

(** The class of the object stored in the [op] field of a [BinOp] or a
    [UnaryOp]; [type(node.op)] in the source. *)
Inductive op_class : Type :=
| OfOperator (o : operator)
| OfUnaryop (u : unaryop).

(** Expression nodes. Fields that carry no sub-expression and that the
    evaluator never reads ([ctx], [kind], [conversion], [is_async],
    positions) are left out. A comprehension clause is the triple
    (target, iter, ifs); a keyword argument is the pair (arg, value),
    with [None] for the name of a [**mapping] argument.

    [Expr] is the expression statement: it is the one statement class
    [_eval] has a branch for, and it never occurs in a tree parsed in
    ['eval'] mode. *)
Inductive expr : Type :=
| BoolOp (op : boolop) (values : list expr)
| NamedExpr (target value : expr)
| BinOp (left : expr) (op : operator) (right : expr)
| UnaryOp (op : unaryop) (operand : expr)
| Lambda (params : list string) (defaults : list expr) (body : expr)
| IfExp (test body orelse : expr)
| Dict (keys : list (option expr)) (values : list expr)
| Set_ (elts : list expr)
| ListComp (elt : expr) (generators : list (expr * expr * list expr))
| SetComp (elt : expr) (generators : list (expr * expr * list expr))
| DictComp (key value : expr) (generators : list (expr * expr * list expr))
| GeneratorExp (elt : expr) (generators : list (expr * expr * list expr))
| Await (value : expr)
| Yield (value : option expr)
| YieldFrom (value : expr)
| Compare (left : expr) (ops : list cmpop) (comparators : list expr)
| Call (func : expr) (args : list expr) (keywords : list (option string * expr))
| FormattedValue (value : expr) (format_spec : option expr)
| JoinedStr (values : list expr)
| Constant (value : constant)
| Attribute (value : expr) (attr : string)
| Subscript (value : expr) (slice : expr)
| Starred (value : expr)
| Name (id : string)
| List (elts : list expr)
| Tuple (elts : list expr)
| Slice (lower upper step : option expr)
| Expr (value : expr).

(** The root [ast.Expression] returned by the parser in ['eval'] mode. *)
Record Expression : Type := { body : expr }.

End ast.

(* ===================================================================== *)
(** * Exceptions, outcomes and values *)
(* ===================================================================== *)

Module py.

(** The exception classes that can arise while an expression is parsed
    and evaluated. All of them derive from [Exception]. *)
Inductive exc_class : Type :=
| SyntaxError
| ValueError
| TypeError
| ZeroDivisionError
| OverflowError
| RecursionError
| MemoryError.

(** An exception object: its class, its message and the exception it was
    raised [from] (its [__cause__]). The wording of the messages produced
    by the interpreter itself changes between releases and is not
    modelled: such exceptions carry [None]. *)
Inductive exn : Type :=
| Exc (cls : exc_class) (msg : option string) (cause : option exn).

Definition exn_class (e : exn) : exc_class := let 'Exc c _ _ := e in c.
Definition exn_msg (e : exn) : option string := let 'Exc _ m _ := e in m.
Definition exn_cause (e : exn) : option exn := let 'Exc _ _ c := e in c.

(** What a handler sees without following [__cause__]: the class and the
    message. *)
Definition kind (e : exn) : exc_class * option string :=
  (exn_class e, exn_msg e).

(** A computation either returns or raises. *)
Inductive outcome (A : Type) : Type :=
| Return (a : A)
| Raise (e : exn).
Arguments Return {A} a.
Arguments Raise {A} e.

Definition bind {A B : Type} (m : outcome A) (k : A -> outcome B) : outcome B :=
  match m with
  | Return a => k a
  | Raise e => Raise e
  end.

Definition raised {A : Type} (m : outcome A) : bool :=
  match m with Return _ => false | Raise _ => true end.

(** [raise C] for an exception of the interpreter, [raise C(msg)] for one
    of the evaluator's own. *)
Definition throw {A : Type} (c : exc_class) : outcome A :=
  Raise (Exc c None None).
Definition throw_msg {A : Type} (c : exc_class) (m : string) : outcome A :=
  Raise (Exc c (Some m) None).
Arguments throw_msg {A} c m%_string.

(** Evaluation of a list of computations from left to right, stopping at
    the first exception: a list comprehension [[f(a) for a in l]]. *)
Fixpoint comprehension {A B : Type} (f : A -> outcome B) (l : list A)
  : outcome (list B) :=
  match l with
  | [] => Return []
  | a :: l' =>
      bind (f a) (fun b => bind (comprehension f l') (fun bs => Return (b :: bs)))
  end.

(** The objects stored in the evaluator's environment that can be called:
    the three closures defined in [_build_env], each holding the value
    [is_deg] had when it was built as the default of its second
    parameter, and five functions of the interpreter. *)
Inductive callable : Type :=
| _sin (is_deg : bool)
| _cos (is_deg : bool)
| _tan (is_deg : bool)
| math_log10
| math_log
| math_sqrt
| builtin_abs
| builtin_round.

(** Run-time values: [int] (unbounded), [bool], [float] (IEEE binary64),
    [complex] and function objects. *)
Inductive value : Type :=
| VInt (n : Z)
| VBool (b : bool)
| VFloat (x : float)
| VComplex (re im : float)
| VFunc (f : callable).

End py.

Export py.

Declare Scope py_scope.
Delimit Scope py_scope with py.
Notation "'let*' x := m 'in' k" := (py.bind m (fun x => k))
  (at level 10, x name, m at level 100, k at level 200) : py_scope.
Open Scope py_scope.

(* ===================================================================== *)
(** * The interpreter's services *)
(* ===================================================================== *)

Module op.

(** The functions of Python's [operator] module that the evaluator puts in
    its table [ops]. *)
Inductive function : Type :=
| add | sub | mul | truediv | mod_ | pow | floordiv | neg | pos.

End op.

(** What the evaluator obtains from the interpreter and from the C library
    and that is not written out below.

    - [ast_parse s] is [ast.parse(s, mode='eval')].
    - [libm_sin], [libm_cos], [libm_tan] are the C functions behind
      [math.sin], [math.cos], [math.tan].
    - [host_log10] and [host_log] are [math.log10] and [math.log], applied
      to an argument tuple.
    - [float_pow x y] is [x ** y] on two floats; it may return a complex
      number and may raise.
    - [float_rem x y] and [float_floor_div x y] are [x % y] and [x // y] on
      two floats, for [y] different from zero.
    - [complex_arith f a b] is the binary operator [f] when at least one of
      the numbers [a], [b] is complex; [complex_abs re im] is [abs] of a
      complex number.
    - [float_round_ndigits x n] is [round(x, n)] for a float [x]. *)
Class Host : Type := {
  ast_parse : string -> outcome ast.Expression;
  libm_sin : float -> float;
  libm_cos : float -> float;
  libm_tan : float -> float;
  host_log10 : list value -> outcome value;
  host_log : list value -> outcome value;
  float_pow : float -> float -> outcome value;
  float_rem : float -> float -> float;
  float_floor_div : float -> float -> float;
  complex_arith : op.function -> value -> value -> outcome value;
  complex_abs : float -> float -> outcome value;
  float_round_ndigits : float -> Z -> outcome value
}.

(* ===================================================================== *)
(** * Numbers *)
(* ===================================================================== *)

(** The definitions of this part and of the next two are not taken from
    calculator.py: they say what CPython does when the evaluator adds,
    divides, converts or calls (Objects/longobject.c, floatobject.c,
    abstract.c, Modules/mathmodule.c, Python/bltinmodule.c), as far as the
    classes of the operands and the exceptions are concerned. *)

Module number.

(** [int(b)] for a bool, and the integer behind an [int] or a [bool]
    ([bool] is a subclass of [int]). *)
Definition as_long (v : value) : option Z :=
  match v with
  | VInt n => Some n
  | VBool b => Some (Z.b2z b)
  | _ => None
  end.

(** [isinstance(v, (int, float))]: true of a [bool] as well. *)
Definition is_int_or_float (v : value) : bool :=
  match v with
  | VInt _ | VBool _ | VFloat _ => true
  | VComplex _ _ | VFunc _ => false
  end.

Definition is_number (v : value) : bool :=
  match v with
  | VFunc _ => false
  | _ => true
  end.

(** [float(n)] for an integer: the nearest binary64 number, ties to even;
    [OverflowError] when that is not finite. *)
Definition long_as_double (n : Z) : outcome float :=
  let x := SF2Prim (binary_normalize prec emax n 0 false) in
  if PrimFloat.is_infinity x then throw OverflowError else Return x.

(** The conversion applied to an argument declared as a C double
    ([PyFloat_AsDouble]): a float is itself, an integer is converted, any
    other object is a [TypeError]. *)
Definition as_double (v : value) : outcome float :=
  match v with
  | VFloat x => Return x
  | VInt n => long_as_double n
  | VBool b => long_as_double (Z.b2z b)
  | VComplex _ _ | VFunc _ => throw TypeError
  end.

(** Truth value of an object. *)
Definition truthy (v : value) : bool :=
  match v with
  | VInt n => negb (n =? 0)%Z
  | VBool b => b
  | VFloat x => negb (PrimFloat.eqb x 0)
  | VComplex re im => negb (PrimFloat.eqb re 0 && PrimFloat.eqb im 0)
  | VFunc _ => true
  end.

(** [a / b] on two integers, [b] not zero: the quotient rounded once to the
    nearest binary64 number; [OverflowError] when it is too large. *)
Definition long_true_divide (a b : Z) : outcome float :=
  let sf (n : Z) :=
    match n with
    | Z0 => S754_zero false
    | Zpos p => S754_finite false p 0
    | Zneg p => S754_finite true p 0
    end in
  let x := SF2Prim (SFdiv prec emax (sf a) (sf b)) in
  if PrimFloat.is_infinity x then throw OverflowError else Return x.

(** The integer nearest to [m * 2^e], ties to the even one. *)
Definition round_half_even (m e : Z) : Z :=
  if (0 <=? e)%Z then (m * 2 ^ e)%Z
  else
    let d := (2 ^ (- e))%Z in
    let q := (m / d)%Z in
    let r := (m mod d)%Z in
    match (2 * r ?= d)%Z with
    | Datatypes.Lt => q
    | Datatypes.Gt => (q + 1)%Z
    | Datatypes.Eq => if Z.even q then q else (q + 1)%Z
    end.

(** [round(x)] for a float: [ValueError] on a NaN, [OverflowError] on an
    infinity, else the nearest integer, ties to even. *)
Definition float_round (x : float) : outcome value :=
  match Prim2SF x with
  | S754_nan => throw ValueError
  | S754_infinity _ => throw OverflowError
  | S754_zero _ => Return (VInt 0)
  | S754_finite s m e =>
      Return (VInt (round_half_even (if s then Z.neg m else Z.pos m) e))
  end.

(** [round(n, ndigits)] for an integer [n]: [n] itself when [ndigits] is not
    negative, else the nearest multiple of [10 ** -ndigits], ties to the
    even multiple. *)
Definition long_round (n ndigits : Z) : Z :=
  if (0 <=? ndigits)%Z then n
  else
    let p := (10 ^ (- ndigits))%Z in
    let q := (n / p)%Z in
    let r := (n mod p)%Z in
    match (2 * r ?= p)%Z with
    | Datatypes.Lt => (q * p)%Z
    | Datatypes.Gt => ((q + 1) * p)%Z
    | Datatypes.Eq => if Z.even q then (q * p)%Z else ((q + 1) * p)%Z
    end.

End number.

(* ===================================================================== *)
(** * The [operator] module *)
(* ===================================================================== *)

Module operator_.
Section WithHost.
Context `{Host}.

(** Arithmetic on two integers ([bool] operands have become integers). *)
Definition long_arith (f : op.function) (m n : Z) : outcome value :=
  match f with
  | op.add => Return (VInt (m + n))
  | op.sub => Return (VInt (m - n))
  | op.mul => Return (VInt (m * n))
  | op.truediv =>
      if (n =? 0)%Z then throw ZeroDivisionError
      else let* x := number.long_true_divide m n in Return (VFloat x)
  | op.mod_ =>
      if (n =? 0)%Z then throw ZeroDivisionError
      else Return (VInt (m mod n))
  | op.floordiv =>
      if (n =? 0)%Z then throw ZeroDivisionError
      else Return (VInt (m / n))
  | op.pow =>
      if (0 <=? n)%Z then Return (VInt (m ^ n))
      else
        let* x := number.long_as_double m in
        let* y := number.long_as_double n in
        float_pow x y
  | op.neg | op.pos => throw TypeError
  end.

(** Arithmetic on two floats. *)
Definition float_arith (f : op.function) (x y : float) : outcome value :=
  match f with
  | op.add => Return (VFloat (x + y))
  | op.sub => Return (VFloat (x - y))
  | op.mul => Return (VFloat (x * y))
  | op.truediv =>
      if PrimFloat.eqb y 0 then throw ZeroDivisionError
      else Return (VFloat (x / y))
  | op.mod_ =>
      if PrimFloat.eqb y 0 then throw ZeroDivisionError
      else Return (VFloat (float_rem x y))
  | op.floordiv =>
      if PrimFloat.eqb y 0 then throw ZeroDivisionError
      else Return (VFloat (float_floor_div x y))
  | op.pow => float_pow x y
  | op.neg | op.pos => throw TypeError
  end.

(** A binary arithmetic operator applied to two objects: integer
    arithmetic on two integers; float arithmetic, after conversion of the
    integer operand, when both are real and one is a float; complex
    arithmetic when one is complex and the other a number; [TypeError]
    when one of them is a function. *)
Definition binary (f : op.function) (a b : value) : outcome value :=
  match number.as_long a, number.as_long b with
  | Some m, Some n => long_arith f m n
  | _, _ =>
      if number.is_int_or_float a && number.is_int_or_float b then
        let* x := number.as_double a in
        let* y := number.as_double b in
        float_arith f x y
      else if number.is_number a && number.is_number b then
        complex_arith f a b
      else throw TypeError
  end.

(** [-a] and [+a]. *)
Definition negative (a : value) : outcome value :=
  match a with
  | VInt n => Return (VInt (- n))
  | VBool b => Return (VInt (- Z.b2z b))
  | VFloat x => Return (VFloat (- x))
  | VComplex re im => Return (VComplex (- re) (- im))
  | VFunc _ => throw TypeError
  end.

Definition positive (a : value) : outcome value :=
  match a with
  | VInt n => Return (VInt n)
  | VBool b => Return (VInt (Z.b2z b))
  | VFloat x => Return (VFloat x)
  | VComplex re im => Return (VComplex re im)
  | VFunc _ => throw TypeError
  end.

(** A call of one of the functions of the module on an argument tuple: the binary
    ones take two arguments, [neg] and [pos] take one, and any other
    number of arguments is a [TypeError]. *)
Definition call (f : op.function) (args : list value) : outcome value :=
  match f, args with
  | op.neg, [a] => negative a
  | op.pos, [a] => positive a
  | (op.add | op.sub | op.mul | op.truediv | op.mod_ | op.pow | op.floordiv), [a; b] =>
      binary f a b
  | _, _ => throw TypeError
  end.

End WithHost.
End operator_.

(* ===================================================================== *)
(** * The [math] module and the built-in functions *)
(* ===================================================================== *)

Module math.

(** [math.pi] and [math.e]: the binary64 numbers nearest to the two
    constants. *)
Definition pi : float := 0x1.921fb54442d18p+1%float.
Definition e : float := 0x1.5bf0a8b145769p+1%float.

(** [math.radians(x)]: the argument times [pi / 180]. *)
Definition radians (v : value) : outcome value :=
  let* x := number.as_double v in
  Return (VFloat (x * (pi / 180))).

(** The wrapper the [math] module puts around a C function of one double:
    a NaN produced from a number is a [ValueError], and so is an infinity
    produced from a finite number, unless the function is one that may
    overflow, where it is an [OverflowError]. (The test of [errno] that
    follows on a few platforms is left out.) *)
Definition math_1 (func : float -> float) (can_overflow : bool) (v : value)
  : outcome value :=
  let* x := number.as_double v in
  let r := func x in
  if PrimFloat.is_nan r && negb (PrimFloat.is_nan x) then throw ValueError
  else if PrimFloat.is_infinity r && PrimFloat.is_finite x then
    if can_overflow then throw OverflowError else throw ValueError
  else Return (VFloat r).

Section WithHost.
Context `{Host}.

Definition sin (v : value) : outcome value := math_1 libm_sin false v.
Definition cos (v : value) : outcome value := math_1 libm_cos false v.
Definition tan (v : value) : outcome value := math_1 libm_tan false v.

Definition sqrt (args : list value) : outcome value :=
  match args with
  | [v] => math_1 PrimFloat.sqrt false v
  | _ => throw TypeError
  end.

End WithHost.
End math.

Module builtins.
Section WithHost.
Context `{Host}.

(** [abs(x)]. *)
Definition abs (args : list value) : outcome value :=
  match args with
  | [VInt n] => Return (VInt (Z.abs n))
  | [VBool b] => Return (VInt (Z.b2z b))
  | [VFloat x] => Return (VFloat (PrimFloat.abs x))
  | [VComplex re im] => complex_abs re im
  | _ => throw TypeError
  end.

(** [round(x)] and [round(x, ndigits)]. An integer is rounded to an
    integer, a float without [ndigits] to the nearest integer with ties to
    even; [ndigits] has to be an integer. Complex numbers and functions
    cannot be rounded. *)
Definition round (args : list value) : outcome value :=
  match args with
  | [v] =>
      match v with
      | VInt n => Return (VInt n)
      | VBool b => Return (VInt (Z.b2z b))
      | VFloat x => number.float_round x
      | VComplex _ _ | VFunc _ => throw TypeError
      end
  | [v; d] =>
      match v, number.as_long d with
      | (VComplex _ _ | VFunc _), _ => throw TypeError
      | _, None => throw TypeError
      | VInt n, Some k => Return (VInt (number.long_round n k))
      | VBool b, Some k => Return (VInt (number.long_round (Z.b2z b) k))
      | VFloat x, Some k => float_round_ndigits x k
      end
  | _ => throw TypeError
  end.

End WithHost.
End builtins.

(* ===================================================================== *)
(** * class SafeEvaluator *)
(* ===================================================================== *)

Module SafeEvaluator.
Section WithHost.
Context `{Host}.

(** [self.ops], as its lookup: [ops c] is [Some f] when the class [c] is a
    key of the dictionary and [f] the function stored under it. *)
Definition ops (c : ast.op_class) : option op.function :=
  match c with
  | ast.OfOperator ast.Add => Some op.add
  | ast.OfOperator ast.Sub => Some op.sub
  | ast.OfOperator ast.Mult => Some op.mul
  | ast.OfOperator ast.Div => Some op.truediv
  | ast.OfOperator ast.Mod => Some op.mod_
  | ast.OfOperator ast.Pow => Some op.pow
  | ast.OfOperator ast.FloorDiv => Some op.floordiv
  | ast.OfUnaryop ast.USub => Some op.neg
  | ast.OfUnaryop ast.UAdd => Some op.pos
  | _ => None
  end.

(** The body shared by [_sin], [_cos] and [_tan]:
    [math.f(math.radians(x)) if is_deg else math.f(x)], where [is_deg] is
    the second parameter of the closure. *)
Definition trig_body (f : value -> outcome value) (x is_deg : value)
  : outcome value :=
  if number.truthy is_deg then
    let* r := math.radians x in f r
  else f x.

(** Binding of the arguments of a call to the parameters
    [(x, is_deg=is_deg)]; [captured] is the default of the second one. *)
Definition trig_closure (f : value -> outcome value) (captured : bool)
    (args : list value) : outcome value :=
  match args with
  | [x] => trig_body f x (VBool captured)
  | [x; is_deg] => trig_body f x is_deg
  | _ => throw TypeError
  end.

(** A call [fn(args)] of an object found in the environment. Only function
    objects can be called. *)
Definition apply (fn : value) (args : list value) : outcome value :=
  match fn with
  | VFunc (_sin is_deg) => trig_closure math.sin is_deg args
  | VFunc (_cos is_deg) => trig_closure math.cos is_deg args
  | VFunc (_tan is_deg) => trig_closure math.tan is_deg args
  | VFunc math_log10 => host_log10 args
  | VFunc math_log => host_log args
  | VFunc math_sqrt => math.sqrt args
  | VFunc builtin_abs => builtins.abs args
  | VFunc builtin_round => builtins.round args
  | VInt _ | VBool _ | VFloat _ | VComplex _ _ => throw TypeError
  end.

(** [_build_env]; [is_deg] is what [self.is_degrees()] returned. *)
Definition _build_env (is_deg : bool) : gmap string value :=
  <[ "e"%string := VFloat math.e ]>
  (<[ "pi"%string := VFloat math.pi ]>
  (<[ "round"%string := VFunc builtin_round ]>
  (<[ "abs"%string := VFunc builtin_abs ]>
  (<[ "sqrt"%string := VFunc math_sqrt ]>
  (<[ "ln"%string := VFunc math_log ]>
  (<[ "log"%string := VFunc math_log10 ]>
  (<[ "tan"%string := VFunc (_tan is_deg) ]>
  (<[ "cos"%string := VFunc (_cos is_deg) ]>
  (<[ "sin"%string := VFunc (_sin is_deg) ]> ∅))))))))).

(** [node.n] when [isinstance(node, ast.Num)]: a [Constant] holding an
    [int], a [float] or a [complex], but not a [bool]. *)
Definition Num_n (node : ast.expr) : option value :=
  match node with
  | ast.Constant (ast.CInt n) => Some (VInt n)
  | ast.Constant (ast.CFloat x) => Some (VFloat x)
  | ast.Constant (ast.CComplex imag) => Some (VComplex 0 imag)
  | _ => None
  end.

(** [node.value] when [isinstance(node.value, (int, float))]; a [bool] is
    an instance of [int]. *)
Definition int_or_float (c : ast.constant) : option value :=
  match c with
  | ast.CInt n => Some (VInt n)
  | ast.CFloat x => Some (VFloat x)
  | ast.CBool b => Some (VBool b)
  | _ => None
  end.

(** [_eval(node, env)]. The first argument is the number of nested
    activations of [_eval] the interpreter still allows: where none is
    left, the call raises [RecursionError]. *)
Fixpoint _eval (depth : nat) (node : ast.expr) (env : gmap string value)
  : outcome value :=
  match depth with
  | O => throw RecursionError
  | S depth' =>
      match Num_n node with
      | Some n => Return n
      | None =>
          match node with
          | ast.Constant value =>
              match int_or_float value with
              | Some v => Return v
              | None =>
                  throw_msg ValueError "Constants other than numbers not allowed"
              end
          | ast.BinOp left_ o right_ =>
              match ops (ast.OfOperator o) with
              | None => throw_msg ValueError "Operator not allowed"
              | Some f =>
                  let* a := _eval depth' left_ env in
                  let* b := _eval depth' right_ env in
                  operator_.call f [a; b]
              end
          | ast.UnaryOp o operand =>
              match ops (ast.OfUnaryop o) with
              | None => throw_msg ValueError "Unary operator not allowed"
              | Some f =>
                  let* a := _eval depth' operand env in
                  operator_.call f [a]
              end
          | ast.Name id =>
              match env !! id with
              | Some v => Return v
              | None => throw_msg ValueError (String.append "Unknown name: " id)
              end
          | ast.Call func args keywords =>
              match func with
              | ast.Name id =>
                  match env !! id with
                  | None => throw_msg ValueError "Function not allowed"
                  | Some fn =>
                      let* args' :=
                        comprehension (fun a => _eval depth' a env) args in
                      if (length args' =? 0)%nat then
                        throw_msg ValueError "Function needs arguments"
                      else apply fn args'
                  end
              | _ => throw_msg ValueError "Function not allowed"
              end
          | ast.Expr value => _eval depth' value env
          | _ => throw_msg ValueError "Unsupported syntax"
          end
      end
  end.

(** [eval(expression)]: a [ZeroDivisionError] is raised again as it is,
    any other exception is replaced by [ValueError("Invalid expression")]
    raised from it. [is_degrees] is the value [self.is_degrees()] returns
    during the call, [limit] the depth left to [_eval]. *)
Definition eval (is_degrees : bool) (limit : nat) (expression : string)
  : outcome value :=
  match
    (let* node := ast_parse expression in
     _eval limit (ast.body node) (_build_env is_degrees))
  with
  | Return v => Return v
  | Raise e =>
      match exn_class e with
      | ZeroDivisionError => Raise e
      | _ => Raise (Exc ValueError (Some "Invalid expression"%string) (Some e))
      end
  end.

End WithHost.
End SafeEvaluator.

(* ===================================================================== *)
(** * A host to run the evaluator on *)
(* ===================================================================== *)

Module sample.

(** The trees CPython's parser builds for a few sources
    ([ast.dump(ast.parse(s, mode='eval'))]); [num n] is an integer literal
    and [call f args] a call of the name [f] without keyword arguments. *)
Definition num (n : Z) : ast.expr := ast.Constant (ast.CInt n).

Definition call (f : string) (args : list ast.expr) : ast.expr :=
  ast.Call (ast.Name f) args [].

Definition parses : list (string * ast.expr) :=
  [ ("1/0", ast.BinOp (num 1) ast.Div (num 0));
    ("5 % 0", ast.BinOp (num 5) ast.Mod (num 0));
    ("7 // 0", ast.BinOp (num 7) ast.FloorDiv (num 0));
    ("sin / 0", ast.BinOp (ast.Name "sin") ast.Div (num 0));
    ("10**400 / 0.0",
      ast.BinOp (ast.BinOp (num 10) ast.Pow (num 400)) ast.Div
        (ast.Constant (ast.CFloat 0)));
    ("sin(90)", call "sin" [num 90]);
    ("sin(90, 0)", call "sin" [num 90; num 0]);
    ("sin(1)", call "sin" [num 1]);
    ("sin(1, x=2)", ast.Call (ast.Name "sin") [num 1] [(Some "x", num 2)]);
    ("sin(1, x=[2])",
      ast.Call (ast.Name "sin") [num 1] [(Some "x", ast.List [num 2])]);
    ("sin()", call "sin" []);
    ("foo(1)", call "foo" [num 1]);
    ("pi(1)", call "pi" [num 1]);
    ("pi()", call "pi" []);
    ("True", ast.Constant (ast.CBool true));
    ("sin", ast.Name "sin");
    ("pi", ast.Name "pi");
    ("foo", ast.Name "foo");
    ("2*e", ast.BinOp (num 2) ast.Mult (ast.Name "e"));
    ("sqrt(16) + 2**3",
      ast.BinOp (call "sqrt" [num 16]) ast.Add (ast.BinOp (num 2) ast.Pow (num 3)));
    ("round(2.5)", call "round" [ast.Constant (ast.CFloat 2.5)]);
    ("2^3", ast.BinOp (num 2) ast.BitXor (num 3));
    ("(1).real", ast.Attribute (num 1) "real");
    ("----1",
      ast.UnaryOp ast.USub (ast.UnaryOp ast.USub
        (ast.UnaryOp ast.USub (ast.UnaryOp ast.USub (num 1)))))
  ]%string.

Fixpoint assoc (s : string) (l : list (string * ast.expr)) : option ast.expr :=
  match l with
  | [] => None
  | (k, t) :: l' => if String.eqb s k then Some t else assoc s l'
  end.

(** The parser of this host: the sources of [parses] have the trees given
    there, and every other string is taken to be a syntax error, as the
    empty string, ["1 +"] and ["import os"] are for CPython. *)
Definition parse (s : string) : outcome ast.Expression :=
  match assoc s parses with
  | Some t => Return {| ast.body := t |}
  | None => throw SyntaxError
  end.

(** The integer nearest to a float, as a float. *)
Definition nearest (x : float) : float :=
  match Prim2SF x with
  | S754_finite s m e =>
      SF2Prim (binary_normalize prec emax
                 (number.round_half_even (if s then Z.neg m else Z.pos m) e) 0 false)
  | _ => x
  end.

(** Sine and cosine by their Taylor polynomials of degree 29 and 28, after
    reduction of the argument to the interval from [-pi] to [pi]. *)
Definition reduce (x : float) : float :=
  (x - (2 * math.pi) * nearest (x / (2 * math.pi)))%float.

Definition horner (denominators : list float) (y2 : float) : float :=
  fold_right (fun d t => (1 - y2 / d * t)%float) 1%float denominators.

Definition sin (x : float) : float :=
  let y := reduce x in
  (y * horner [6; 20; 42; 72; 110; 156; 210; 272; 342; 420; 506; 600; 702; 812]%float
         (y * y))%float.

Definition cos (x : float) : float :=
  let y := reduce x in
  horner [2; 12; 30; 56; 90; 132; 182; 240; 306; 380; 462; 552; 650; 756]%float
    (y * y)%float.

(** The host: the parser and the trigonometric functions above. The other
    services are reached by none of the sources of [parses] and are not
    provided: they raise [MemoryError] or return a NaN. *)
Definition host : Host := {|
  ast_parse := parse;
  libm_sin := sin;
  libm_cos := cos;
  libm_tan := fun x => (sin x / cos x)%float;
  host_log10 := fun _ => throw MemoryError;
  host_log := fun _ => throw MemoryError;
  float_pow := fun _ _ => throw MemoryError;
  float_rem := fun _ _ => nan;
  float_floor_div := fun _ _ => nan;
  complex_arith := fun _ _ _ => throw MemoryError;
  complex_abs := fun _ _ => throw MemoryError;
  float_round_ndigits := fun _ _ => throw MemoryError
|}.

End sample.

(* ===================================================================== *)
(** * Vocabulary of the properties *)
(* ===================================================================== *)

Module walk.

(** The sub-expressions of a comprehension clause and of an optional
    expression. *)
Definition of_clause (c : ast.expr * ast.expr * list ast.expr) : list ast.expr :=
  let '(target, iter, ifs) := c in target :: iter :: ifs.

Definition of_option (o : option ast.expr) : list ast.expr :=
  match o with Some x => [x] | None => [] end.

(** Every immediate sub-expression of a node, whether [_eval] looks at it
    or not. *)
Definition children (node : ast.expr) : list ast.expr :=
  match node with
  | ast.BoolOp _ values => values
  | ast.NamedExpr target value => [target; value]
  | ast.BinOp l _ r => [l; r]
  | ast.UnaryOp _ operand => [operand]
  | ast.Lambda _ defaults body => defaults ++ [body]
  | ast.IfExp test body orelse => [test; body; orelse]
  | ast.Dict keys values => concat (map of_option keys) ++ values
  | ast.Set_ elts | ast.List elts | ast.Tuple elts => elts
  | ast.ListComp elt generators | ast.SetComp elt generators
  | ast.GeneratorExp elt generators =>
      elt :: concat (map of_clause generators)
  | ast.DictComp key value generators =>
      key :: value :: concat (map of_clause generators)
  | ast.Await value | ast.YieldFrom value | ast.Starred value
  | ast.Expr value | ast.Attribute value _ => [value]
  | ast.Yield value => of_option value
  | ast.Compare l _ comparators => l :: comparators
  | ast.Call func args keywords => func :: args ++ map snd keywords
  | ast.FormattedValue value format_spec => value :: of_option format_spec
  | ast.JoinedStr values => values
  | ast.Constant _ | ast.Name _ => []
  | ast.Subscript value slice => [value; slice]
  | ast.Slice lower upper step =>
      of_option lower ++ of_option upper ++ of_option step
  end.

(** The sub-expressions [_eval] calls itself on: the operands of an
    operator, the positional arguments of a call, the value of an
    expression statement. *)
Definition operands (node : ast.expr) : list ast.expr :=
  match node with
  | ast.BinOp l _ r => [l; r]
  | ast.UnaryOp _ operand => [operand]
  | ast.Call _ args _ => args
  | ast.Expr value => [value]
  | _ => []
  end.

(** [occurs n t]: [n] is [t] or occurs in a child of [t]. *)
Inductive occurs (n : ast.expr) : ast.expr -> Prop :=
| occurs_here : occurs n n
| occurs_below (c t : ast.expr) :
    List.In c (children t) -> occurs n c -> occurs n t.

(** [reached n t]: [n] is [t] or is reached through operands only. *)
Inductive reached (n : ast.expr) : ast.expr -> Prop :=
| reached_here : reached n n
| reached_below (c t : ast.expr) :
    List.In c (operands t) -> reached n c -> reached n t.

(** The constructs the specification lists as outside the language: an
    assignment expression, string, boolean and collection literals,
    comparisons and boolean operators, attribute access, subscripting,
    lambda, comprehensions and slices. *)
Definition listed_construct (node : ast.expr) : bool :=
  match node with
  | ast.NamedExpr _ _ => true
  | ast.Constant (ast.CStr _ | ast.CBytes _ | ast.CBool _) => true
  | ast.List _ | ast.Tuple _ | ast.Set_ _ | ast.Dict _ _ => true
  | ast.Compare _ _ _ | ast.BoolOp _ _ | ast.UnaryOp ast.Not _ => true
  | ast.Attribute _ _ | ast.Subscript _ _ | ast.Slice _ _ _ => true
  | ast.Lambda _ _ _ => true
  | ast.ListComp _ _ | ast.SetComp _ _ | ast.DictComp _ _ _
  | ast.GeneratorExp _ _ => true
  | _ => false
  end.

Definition is_bool_literal (node : ast.expr) : bool :=
  match node with
  | ast.Constant (ast.CBool _) => true
  | _ => false
  end.

(** The message of the [ValueError] with which [_eval] refuses a node
    without looking inside it, for the nodes it refuses in that way. *)
Definition refusal (node : ast.expr) : option string :=
  match node with
  | ast.Constant (ast.CInt _ | ast.CFloat _ | ast.CComplex _ | ast.CBool _) => None
  | ast.Constant _ => Some "Constants other than numbers not allowed"%string
  | ast.BinOp _ o _ =>
      match SafeEvaluator.ops (ast.OfOperator o) with
      | Some _ => None
      | None => Some "Operator not allowed"%string
      end
  | ast.UnaryOp o _ =>
      match SafeEvaluator.ops (ast.OfUnaryop o) with
      | Some _ => None
      | None => Some "Unary operator not allowed"%string
      end
  | ast.Name _ | ast.Expr _ | ast.Call (ast.Name _) _ _ => None
  | ast.Call _ _ _ => Some "Function not allowed"%string
  | _ => Some "Unsupported syntax"%string
  end.

(** Nesting depth along operands: the number of activations of [_eval]
    stacked when the deepest operand is evaluated. *)
Fixpoint height (node : ast.expr) : nat :=
  match node with
  | ast.BinOp l _ r => S (Nat.max (height l) (height r))
  | ast.UnaryOp _ operand => S (height operand)
  | ast.Call _ args _ =>
      S (fold_right (fun a m => Nat.max (height a) m) 0%nat args)
  | ast.Expr value => S (height value)
  | _ => 1%nat
  end.

(** A string made of blanks only: spaces, tabs, line feeds, carriage
    returns, vertical tabs and form feeds. The empty string is one. *)
Definition is_blank (c : Ascii.ascii) : bool :=
  let n := Ascii.nat_of_ascii c in
  (n =? 32)%nat || ((9 <=? n)%nat && (n <=? 13)%nat).

Fixpoint whitespace_only (s : string) : bool :=
  match s with
  | EmptyString => true
  | String c s' => is_blank c && whitespace_only s'
  end.

End walk.

Module division.

(** The three dividing operators, as tokens and as functions. *)
Definition token (o : ast.operator) : bool :=
  match o with
  | ast.Div | ast.Mod | ast.FloorDiv => true
  | _ => false
  end.

(** A real zero: [0], [False], [0.0] and [-0.0]. *)
Definition zero (b : value) : bool :=
  match b with
  | VInt n => (n =? 0)%Z
  | VBool b => negb b
  | VFloat x => PrimFloat.eqb x 0
  | VComplex _ _ | VFunc _ => false
  end.

(** A dividend the three operators accept in front of the real divisor
    [b]: a float, or an integer, which in front of a float has to be one
    that [float()] can convert. *)
Definition dividend (a b : value) : bool :=
  match a, b with
  | VFloat _, _ => true
  | (VInt _ | VBool _), VFloat _ => negb (raised (number.as_double a))
  | (VInt _ | VBool _), _ => true
  | _, _ => false
  end.

Section WithHost.
Context `{Host}.

(** [applies env depth node]: the evaluation of [node], with [depth]
    activations left, comes to apply [/], [%] or [//] to an accepted
    dividend and a real zero. The first rule is the application itself;
    the others say where in a larger expression it takes place: in an
    operand, once the operands before it have been evaluated, or in an
    argument of a call of a name of the environment, once the arguments
    before it have been evaluated. *)
Inductive applies (env : gmap string value) : nat -> ast.expr -> Prop :=
| applies_here d l o r a b :
    token o = true ->
    SafeEvaluator._eval d l env = Return a ->
    SafeEvaluator._eval d r env = Return b ->
    zero b = true ->
    dividend a b = true ->
    applies env (S d) (ast.BinOp l o r)
| applies_left d l o r f :
    SafeEvaluator.ops (ast.OfOperator o) = Some f ->
    applies env d l ->
    applies env (S d) (ast.BinOp l o r)
| applies_right d l o r f a :
    SafeEvaluator.ops (ast.OfOperator o) = Some f ->
    SafeEvaluator._eval d l env = Return a ->
    applies env d r ->
    applies env (S d) (ast.BinOp l o r)
| applies_operand d o x f :
    SafeEvaluator.ops (ast.OfUnaryop o) = Some f ->
    applies env d x ->
    applies env (S d) (ast.UnaryOp o x)
| applies_argument d id fn before x after keywords vs :
    env !! id = Some fn ->
    comprehension (fun a => SafeEvaluator._eval d a env) before = Return vs ->
    applies env d x ->
    applies env (S d) (ast.Call (ast.Name id) (before ++ x :: after) keywords)
| applies_statement d v :
    applies env d v ->
    applies env (S d) (ast.Expr v).

End WithHost.
End division.

(** [within tol x y]: [x] is a finite float at distance at most [tol]
    from [y]. *)
Definition within (tol x y : float) : bool :=
  PrimFloat.is_finite x && PrimFloat.leb (PrimFloat.abs (x - y)) tol.

(** A numeric result in the sense of the specification: an integer or a
    64-bit float. *)
Definition numeric (v : value) : bool :=
  match v with
  | VInt _ | VFloat _ => true
  | VBool _ | VComplex _ _ | VFunc _ => false
  end.

(** The kind of the exception in which [eval] wraps what it does not let
    through. *)
Definition invalid_expression : exc_class * option string :=
  (ValueError, Some "Invalid expression"%string).

(* ===================================================================== *)
(** * Strings and the display of numbers *)
(* ===================================================================== *)

(** A string is the sequence of its characters, each a code point below
    256. *)
Module str_.

(** [c.isspace()]: the blanks below 256 are the control characters 9 to 13
    and 28 to 31, the space, and the code points 133 and 160. *)
Definition isspace (c : Ascii.ascii) : bool :=
  let n := Ascii.nat_of_ascii c in
  ((9 <=? n)%nat && (n <=? 13)%nat) || ((28 <=? n)%nat && (n <=? 32)%nat)
  || (n =? 133)%nat || (n =? 160)%nat.

Fixpoint lstrip (s : string) : string :=
  match s with
  | EmptyString => EmptyString
  | String c s' => if isspace c then lstrip s' else s
  end.

Fixpoint rstrip (s : string) : string :=
  match s with
  | EmptyString => EmptyString
  | String c s' =>
      match rstrip s' with
      | EmptyString => if isspace c then EmptyString else String c EmptyString
      | t => String c t
      end
  end.

(** [s.strip()]. *)
Definition strip (s : string) : string := lstrip (rstrip s).

(** The character [=]. *)
Definition equals_sign : Ascii.ascii := Ascii.ascii_of_nat 61.

(** [s.split(sep)[0]] for a separator of one character: what comes before
    its first occurrence, or the whole of [s]. *)
Fixpoint before (sep : Ascii.ascii) (s : string) : string :=
  match s with
  | EmptyString => EmptyString
  | String c s' => if Ascii.eqb c sep then EmptyString else String c (before sep s')
  end.

(** [sub in s]. *)
Fixpoint contains (sub s : string) : bool :=
  String.prefix sub s
  || match s with
     | EmptyString => false
     | String _ s' => contains sub s'
     end.

(** [s[:-1]]: the string without its last character. *)
Fixpoint without_last (s : string) : string :=
  match s with
  | EmptyString => EmptyString
  | String c EmptyString => EmptyString
  | String c s' => String c (without_last s')
  end.

(** The decimal digits of an integer, with a minus sign in front of a
    negative one. *)
Definition decimal (n : Z) : string := NilZero.string_of_int (Z.to_int n).

End str_.

(** What the application obtains from the interpreter, beside [Host].

    - [int_max_str_digits] is [sys.get_int_max_str_digits()]: the number
      of digits above which the conversion of an integer to a string is
      refused, zero for no bound (the only value before the bound was
      introduced); a bound is at least 640.
    - [format_12g_float x] and [format_12g_complex re im] are the string
      [f"{x:.12g}"] for a float and for a complex number.
    - [str_float], [str_complex] and [str_function] are [str(x)] for a
      float, a complex number and a function object.
    - [float_of_str s] is [float(s)] for a string. *)
Class Desktop : Type := {
  int_max_str_digits : Z;
  format_12g_float : float -> string;
  format_12g_complex : float -> float -> string;
  str_float : float -> string;
  str_complex : float -> float -> string;
  str_function : callable -> string;
  float_of_str : string -> outcome float
}.

Module display.

(** [x.is_integer()] for a float: finite, and without fractional part. *)
Definition is_integer (x : float) : bool :=
  match Prim2SF x with
  | S754_zero _ => true
  | S754_finite _ m e => (0 <=? e)%Z || (Z.pos m mod 2 ^ (- e) =? 0)%Z
  | S754_nan | S754_infinity _ => false
  end.

(** [int(x)] for a float: the integer part, towards zero; a NaN is a
    [ValueError] and an infinity an [OverflowError]. *)
Definition float_to_long (x : float) : outcome Z :=
  match Prim2SF x with
  | S754_nan => throw ValueError
  | S754_infinity _ => throw OverflowError
  | S754_zero _ => Return 0%Z
  | S754_finite s m e =>
      let a := if (0 <=? e)%Z then (Z.pos m * 2 ^ e)%Z else (Z.pos m / 2 ^ (- e))%Z in
      Return (if s then (- a)%Z else a)
  end.

(** [try: body, except Exception: handler]. *)
Definition try_except {A : Type} (body : outcome A) (handler : exn -> outcome A)
  : outcome A :=
  match body with
  | Return a => Return a
  | Raise e => handler e
  end.

Section WithDesktop.
Context `{Desktop}.

(** [str(n)] for an integer: its decimal digits, unless there is a bound on
    the digits and [n] has more, which is a [ValueError]. *)
Definition str_long (n : Z) : outcome string :=
  if (0 <? int_max_str_digits)%Z
     && (10 ^ (Z.max int_max_str_digits 640) <=? Z.abs n)%Z
  then throw ValueError
  else Return (str_.decimal n).

(** [int(x)]. *)
Definition int_ (x : value) : outcome Z :=
  match x with
  | VInt n => Return n
  | VBool b => Return (Z.b2z b)
  | VFloat x => float_to_long x
  | VComplex _ _ | VFunc _ => throw TypeError
  end.

(** [f"{x:.12g}"]: an integer is formatted as the float it converts to, a
    function object has no such format. *)
Definition format_12g (x : value) : outcome string :=
  match x with
  | VFloat x => Return (format_12g_float x)
  | VComplex re im => Return (format_12g_complex re im)
  | VInt _ | VBool _ =>
      let* y := number.as_double x in Return (format_12g_float y)
  | VFunc _ => throw TypeError
  end.

(** [str(x)]. *)
Definition str (x : value) : outcome string :=
  match x with
  | VInt n => str_long n
  | VBool b => Return (if b then "True" else "False")%string
  | VFloat x => Return (str_float x)
  | VComplex re im => Return (str_complex re im)
  | VFunc f => Return (str_function f)
  end.

(** [CalculatorApp.format_number]. *)
Definition format_number (x : value) : outcome string :=
  try_except
    (if (match x with VInt _ | VBool _ => true | _ => false end)
        || (match x with VFloat y => is_integer y | _ => false end)
     then let* n := int_ x in str_long n
     else format_12g x)
    (fun _ => str x).

End WithDesktop.
End display.

(* ===================================================================== *)
(** * class CalculatorApp *)
(* ===================================================================== *)

Module CalculatorApp.

(** The state of the application: the attributes set in [__init__], the
    text of the entry widget, the string of [result_var], the lines of the
    list box [hist_list], and the error dialogs shown so far, oldest
    first, each with its title and its message ([None] for a message
    worded by the interpreter). The appearance of the widgets is not part
    of it. *)
Record app : Type := {
  is_dark : bool;
  degree_mode : bool;
  memory_value : float;
  history : list string;
  history_index : option Z;
  entry : string;
  result_var : string;
  hist_list : list string;
  dialogs : list (string * option string)
}.

(** The state after [__init__]. *)
Definition init : app := {|
  is_dark := false;
  degree_mode := true;
  memory_value := 0;
  history := [];
  history_index := None;
  entry := EmptyString;
  result_var := EmptyString;
  hist_list := [];
  dialogs := []
|}.

Definition set_entry (s : string) (st : app) : app :=
  {| is_dark := is_dark st; degree_mode := degree_mode st;
     memory_value := memory_value st; history := history st;
     history_index := history_index st; entry := s;
     result_var := result_var st; hist_list := hist_list st;
     dialogs := dialogs st |}.

Definition set_result_var (s : string) (st : app) : app :=
  {| is_dark := is_dark st; degree_mode := degree_mode st;
     memory_value := memory_value st; history := history st;
     history_index := history_index st; entry := entry st;
     result_var := s; hist_list := hist_list st;
     dialogs := dialogs st |}.

Definition set_history_index (i : option Z) (st : app) : app :=
  {| is_dark := is_dark st; degree_mode := degree_mode st;
     memory_value := memory_value st; history := history st;
     history_index := i; entry := entry st;
     result_var := result_var st; hist_list := hist_list st;
     dialogs := dialogs st |}.

Definition set_history (h : list string) (st : app) : app :=
  {| is_dark := is_dark st; degree_mode := degree_mode st;
     memory_value := memory_value st; history := h;
     history_index := history_index st; entry := entry st;
     result_var := result_var st; hist_list := hist_list st;
     dialogs := dialogs st |}.

Definition set_hist_list (h : list string) (st : app) : app :=
  {| is_dark := is_dark st; degree_mode := degree_mode st;
     memory_value := memory_value st; history := history st;
     history_index := history_index st; entry := entry st;
     result_var := result_var st; hist_list := h;
     dialogs := dialogs st |}.

Definition set_memory_value (x : float) (st : app) : app :=
  {| is_dark := is_dark st; degree_mode := degree_mode st;
     memory_value := x; history := history st;
     history_index := history_index st; entry := entry st;
     result_var := result_var st; hist_list := hist_list st;
     dialogs := dialogs st |}.

Definition set_degree_mode (b : bool) (st : app) : app :=
  {| is_dark := is_dark st; degree_mode := b;
     memory_value := memory_value st; history := history st;
     history_index := history_index st; entry := entry st;
     result_var := result_var st; hist_list := hist_list st;
     dialogs := dialogs st |}.

Definition set_is_dark (b : bool) (st : app) : app :=
  {| is_dark := b; degree_mode := degree_mode st;
     memory_value := memory_value st; history := history st;
     history_index := history_index st; entry := entry st;
     result_var := result_var st; hist_list := hist_list st;
     dialogs := dialogs st |}.

(** [messagebox.showerror(title, message)]. *)
Definition showerror (title : string) (message : option string) (st : app) : app :=
  {| is_dark := is_dark st; degree_mode := degree_mode st;
     memory_value := memory_value st; history := history st;
     history_index := history_index st; entry := entry st;
     result_var := result_var st; hist_list := hist_list st;
     dialogs := dialogs st ++ [(title, message)] |}.

(** What a method may raise: an exception of the evaluator or of the
    conversions above, or the [IndexError] of a list. *)
Inductive error : Type :=
| Error (e : exn)
| IndexError.

(** [str(e)], [None] when the interpreter words it. *)
Definition message (e : error) : option string :=
  match e with
  | Error e => exn_msg e
  | IndexError => None
  end.

Definition is_ZeroDivisionError (e : error) : bool :=
  match e with
  | Error (Exc ZeroDivisionError _ _) => true
  | _ => false
  end.

Inductive result (A : Type) : Type :=
| Done (a : A)
| Failed (e : error).
Arguments Done {A} a.
Arguments Failed {A} e.

Definition of_outcome {A : Type} (o : outcome A) : result A :=
  match o with
  | Return a => Done a
  | Raise e => Failed (Error e)
  end.

(** A method: from a state, it returns or raises, and leaves a state. *)
Definition method (A : Type) : Type := app -> result A * app.

Definition ret {A : Type} (a : A) : method A := fun st => (Done a, st).

Definition then_ {A B : Type} (m : method A) (k : A -> method B) : method B :=
  fun st =>
    match m st with
    | (Done a, st') => k a st'
    | (Failed e, st') => (Failed e, st')
    end.

(** A computation that reads the state without touching it, and an update
    of the state. *)
Definition lift {A : Type} (f : app -> outcome A) : method A :=
  fun st => (of_outcome (f st), st).

Definition update (f : app -> app) : method unit :=
  fun st => (Done tt, f st).

(** [try: body, except Exception as e: handler]: what the body did to the
    state before it raised stays done. *)
Definition try_ {A : Type} (body : method A) (handler : error -> method A)
  : method A :=
  fun st =>
    match body st with
    | (Done a, st') => (Done a, st')
    | (Failed e, st') => handler e st'
    end.

(** [l[i]] for a list: a negative index counts from the end, and an index
    out of range is an [IndexError]. *)
Definition getitem {A : Type} (l : list A) (i : Z) : result A :=
  let n := Z.of_nat (length l) in
  let j := if (i <? 0)%Z then (i + n)%Z else i in
  match (if (j <? 0)%Z then None else nth_error l (Z.to_nat j)) with
  | Some a => Done a
  | None => Failed IndexError
  end.

Declare Scope method_scope.
Delimit Scope method_scope with method.
Notation "'do' x := m 'in' k" := (then_ m (fun x => k))
  (at level 10, x name, m at level 100, k at level 200) : method_scope.
Notation "m ';;;' k" := (then_ m (fun _ => k))
  (at level 100, right associativity) : method_scope.
Local Open Scope method_scope.

Section WithDesktop.
Context `{Host} `{Desktop}.

(** The depth the interpreter leaves to [_eval] when a callback runs. *)
Variable limit : nat.

(** [insert_text(txt)], which [on_button(txt)] calls. *)
Definition insert_text (txt : string) : method unit :=
  update (fun st => set_entry (String.append (entry st) txt) st) ;;;
  update (set_result_var EmptyString).

Definition on_button (txt : string) : method unit := insert_text txt.

(** [clear()]. *)
Definition clear : method unit :=
  update (set_entry EmptyString) ;;;
  update (set_result_var EmptyString) ;;;
  update (set_history_index None).

(** [backspace()]. *)
Definition backspace : method unit :=
  do s := lift (fun st => Return (entry st)) in
  if String.eqb s EmptyString then ret tt
  else update (set_entry (str_.without_last s)).

(** [_add_history(item)]. *)
Definition _add_history (item : string) : method unit :=
  update (fun st => set_history (history st ++ [item]) st) ;;;
  update (fun st => set_hist_list (hist_list st ++ [item]) st).

(** [self.evaluator.eval(expr)]: the evaluator reads [degree_mode] when
    it is called. *)
Definition evaluate (expr : string) : method value :=
  lift (fun st => SafeEvaluator.eval (degree_mode st) limit expr).

(** [equals()]. *)
Definition equals : method unit :=
  do s := lift (fun st => Return (entry st)) in
  let expr := str_.strip s in
  if String.eqb expr EmptyString then ret tt
  else
    try_
      (do result := evaluate expr in
       do shown := lift (fun _ => display.format_number result) in
       update (set_result_var shown) ;;;
       do shown := lift (fun _ => display.format_number result) in
       _add_history (String.append expr (String.append " = " shown)) ;;;
       update (set_entry EmptyString) ;;;
       do shown := lift (fun _ => display.format_number result) in
       update (fun st => set_entry (String.append shown (entry st)) st) ;;;
       update (set_history_index None))
      (fun e =>
         if is_ZeroDivisionError e then
           update (showerror "Math error" (Some "Division by zero"%string))
         else update (showerror "Error" (message e))).

(** The expression of a line of the history:
    [item.split("=")[0].strip()]. *)
Definition expression_of (item : string) : string :=
  str_.strip (str_.before str_.equals_sign item).

(** [on_history_select(event)]; [selection] is what
    [hist_list.curselection()] returns, and the line of an index the list
    box does not have is the empty string. *)
Definition on_history_select (selection : list nat) : method unit :=
  match selection with
  | [] => ret tt
  | i :: _ =>
      do item := lift (fun st => Return (nth i (hist_list st) EmptyString)) in
      update (set_entry EmptyString) ;;;
      update (fun st => set_entry (String.append (expression_of item) (entry st)) st) ;;;
      update (set_result_var EmptyString)
  end.

(** [clear_history()]. *)
Definition clear_history : method unit :=
  update (set_history []) ;;;
  update (set_hist_list []) ;;;
  update (set_history_index None).

(** [_load_history_index()]. *)
Definition _load_history_index : method unit :=
  do index := lift (fun st => Return (history_index st)) in
  match index with
  | None => ret tt
  | Some i =>
      do item := (fun st => (getitem (history st) i, st)) in
      update (set_entry EmptyString) ;;;
      update (fun st => set_entry (String.append (expression_of item) (entry st)) st) ;;;
      update (set_result_var EmptyString)
  end.

(** [history_prev()]. *)
Definition history_prev : method unit :=
  do h := lift (fun st => Return (history st)) in
  match h with
  | [] => ret tt
  | _ =>
      do index := lift (fun st => Return (history_index st)) in
      (match index with
       | None =>
           update (fun st => set_history_index
                               (Some (Z.of_nat (length (history st)) - 1)%Z) st)
       | Some i => update (set_history_index (Some (Z.max 0 (i - 1))))
       end) ;;;
      _load_history_index
  end.

(** [history_next()]. *)
Definition history_next : method unit :=
  do h := lift (fun st => Return (history st)) in
  match h with
  | [] => ret tt
  | _ =>
      do index := lift (fun st => Return (history_index st)) in
      match index with
      | None => ret tt
      | Some i =>
          update (fun st => set_history_index
                              (Some (Z.min (Z.of_nat (length (history st)) - 1) (i + 1))) st) ;;;
          _load_history_index
      end
  end.

(** [_current_value()]: [float(v)] is the conversion of [as_double]. *)
Definition _current_value : method float :=
  do s0 := lift (fun st => Return (entry st)) in
  let s := str_.strip s0 in
  if String.eqb s EmptyString then
    try_ (lift (fun st => float_of_str (result_var st)))
         (fun _ => ret 0%float)
  else
    try_ (do v := evaluate s in lift (fun _ => number.as_double v))
         (fun _ => ret 0%float).

(** [mem_clear()], [mem_recall()], [mem_add()] and [mem_sub()]. *)
Definition mem_clear : method unit :=
  update (set_memory_value 0) ;;;
  update (set_result_var "Memory cleared").

Definition mem_recall : method unit :=
  do shown := lift (fun st => display.format_number (VFloat (memory_value st))) in
  insert_text shown.

Definition mem_add : method unit :=
  do m := lift (fun st => Return (memory_value st)) in
  do x := _current_value in
  update (set_memory_value (m + x)) ;;;
  do shown := lift (fun st => display.format_number (VFloat (memory_value st))) in
  update (set_result_var (String.append "Memory: " shown)).

Definition mem_sub : method unit :=
  do m := lift (fun st => Return (memory_value st)) in
  do x := _current_value in
  update (set_memory_value (m - x)) ;;;
  do shown := lift (fun st => display.format_number (VFloat (memory_value st))) in
  update (set_result_var (String.append "Memory: " shown)).

(** [toggle_theme()] and [toggle_degree_mode()], as far as the state is
    concerned. *)
Definition toggle_theme : method unit :=
  update (fun st => set_is_dark (negb (is_dark st)) st).

Definition toggle_degree_mode : method unit :=
  update (fun st => set_degree_mode (negb (degree_mode st)) st).

(** The handler [on_key] of [_bind_keys]; [char] is [e.char]. *)
Definition allowed : string := "0123456789+-*/().% ^".

Definition on_key (char : string) : method unit :=
  if negb (String.eqb char EmptyString) && str_.contains char allowed
  then insert_text char
  else ret tt.

(** What the user does: a key of the keypad that inserts a text, the
    other keys and buttons, a click on a line of the history, a key of the
    keyboard. *)
Inductive event : Type :=
| Press (txt : string)
| PressClear
| PressBackspace
| PressEquals
| PressMemoryClear
| PressMemoryRecall
| PressMemoryAdd
| PressMemorySub
| PressTheme
| PressMode
| PressClearHistory
| KeyUp
| KeyDown
| Select (selection : list nat)
| Key (char : string).

Definition handle (ev : event) : method unit :=
  match ev with
  | Press txt => on_button txt
  | PressClear => clear
  | PressBackspace => backspace
  | PressEquals => equals
  | PressMemoryClear => mem_clear
  | PressMemoryRecall => mem_recall
  | PressMemoryAdd => mem_add
  | PressMemorySub => mem_sub
  | PressTheme => toggle_theme
  | PressMode => toggle_degree_mode
  | PressClearHistory => clear_history
  | KeyUp => history_prev
  | KeyDown => history_next
  | Select selection => on_history_select selection
  | Key char => on_key char
  end.

(** The states the application can be in: the initial one, and the state
    any callback leaves, whether it returned or raised. *)
Inductive reachable : app -> Prop :=
| reachable_init : reachable init
| reachable_step (st : app) (ev : event) :
    reachable st -> reachable (snd (handle ev st)).

(** The list box shows the history, and the index of the navigation, when
    there is one, is the index of a line. *)
Definition consistent (st : app) : Prop :=
  hist_list st = history st
  /\ match history_index st with
     | None => True
     | Some i => (0 <= i < Z.of_nat (length (history st)))%Z
     end.

End WithDesktop.
End CalculatorApp.

(* ===================================================================== *)
(** * More vocabulary *)
(* ===================================================================== *)

Module whitelist.

(** The test a node passes on its own when [_eval] does not refuse it: a
    numeric or boolean constant, an operator of [ops], a name of the
    environment, a call with arguments of a name of the environment, an
    expression statement. *)
Definition accepted (env : gmap string value) (node : ast.expr) : bool :=
  match node with
  | ast.Constant (ast.CInt _ | ast.CFloat _ | ast.CComplex _ | ast.CBool _) => true
  | ast.BinOp _ o _ =>
      match SafeEvaluator.ops (ast.OfOperator o) with Some _ => true | None => false end
  | ast.UnaryOp o _ =>
      match SafeEvaluator.ops (ast.OfUnaryop o) with Some _ => true | None => false end
  | ast.Name id =>
      match env !! id with Some _ => true | None => false end
  | ast.Call (ast.Name id) args _ =>
      match env !! id, args with
      | Some _, _ :: _ => true
      | _, _ => false
      end
  | ast.Expr _ => true
  | _ => false
  end.

(** The name a node looks up in the environment: the identifier of a bare
    name, and of the callee of a call. *)
Definition name_of (node : ast.expr) : option string :=
  match node with
  | ast.Name id | ast.Call (ast.Name id) _ _ => Some id
  | _ => None
  end.

End whitelist.

Module reference.

(** The integer an expression denotes when it is made of integer literals,
    of the two signs and of [+], [-], [*], [//], [%] and [**]: exact
    arithmetic, the quotient rounded down and the remainder of the sign
    of the divisor, no value for a zero divisor or a negative exponent. *)
Fixpoint int_value (node : ast.expr) : option Z :=
  match node with
  | ast.Constant (ast.CInt n) => Some n
  | ast.UnaryOp ast.USub x =>
      match int_value x with Some a => Some (- a)%Z | None => None end
  | ast.UnaryOp ast.UAdd x => int_value x
  | ast.BinOp l o r =>
      match int_value l, int_value r with
      | Some a, Some b =>
          match o with
          | ast.Add => Some (a + b)%Z
          | ast.Sub => Some (a - b)%Z
          | ast.Mult => Some (a * b)%Z
          | ast.FloorDiv => if (b =? 0)%Z then None else Some (a / b)%Z
          | ast.Mod => if (b =? 0)%Z then None else Some (a mod b)%Z
          | ast.Pow => if (0 <=? b)%Z then Some (a ^ b)%Z else None
          | _ => None
          end
      | _, _ => None
      end
  | _ => None
  end.

End reference.

(** A desktop to run the application on: the bound on the digits is the
    default of CPython 3.11; the other conversions are reached by none of
    the runs below and are not provided. *)
Module sample_desktop.

Definition desktop : Desktop := {|
  int_max_str_digits := 4300;
  format_12g_float := fun _ => EmptyString;
  format_12g_complex := fun _ _ => EmptyString;
  str_float := fun _ => EmptyString;
  str_complex := fun _ _ => EmptyString;
  str_function := fun _ => EmptyString;
  float_of_str := fun _ => throw ValueError
|}.

End sample_desktop.

(** The sample host with the trees of a few more sources. *)
Module sample_more.

Definition parses : list (string * ast.expr) :=
  [ ("(2 + 3) * -4 // 3",
      ast.BinOp
        (ast.BinOp (ast.BinOp (sample.num 2) ast.Add (sample.num 3)) ast.Mult
           (ast.UnaryOp ast.USub (sample.num 4)))
        ast.FloorDiv (sample.num 3));
    ("-7 % 3", ast.BinOp (ast.UnaryOp ast.USub (sample.num 7)) ast.Mod (sample.num 3));
    ("2**10", ast.BinOp (sample.num 2) ast.Pow (sample.num 10));
    ("10**5000", ast.BinOp (sample.num 10) ast.Pow (sample.num 5000))
  ]%string.

Definition parse (s : string) : outcome ast.Expression :=
  match sample.assoc s parses with
  | Some t => Return {| ast.body := t |}
  | None => sample.parse s
  end.

Definition host : Host := {|
  ast_parse := parse;
  libm_sin := sample.sin;
  libm_cos := sample.cos;
  libm_tan := fun x => (sample.sin x / sample.cos x)%float;
  host_log10 := fun _ => throw MemoryError;
  host_log := fun _ => throw MemoryError;
  float_pow := fun _ _ => throw MemoryError;
  float_rem := fun _ _ => nan;
  float_floor_div := fun _ _ => nan;
  complex_arith := fun _ _ _ => throw MemoryError;
  complex_abs := fun _ _ => throw MemoryError;
  float_round_ndigits := fun _ _ => throw MemoryError
|}.

(** States to run the application from: the initial state with a text in
    the entry, and a state in the middle of a navigation of the history,
    on its second line. *)
Definition typed (s : string) : CalculatorApp.app :=
  CalculatorApp.set_entry s CalculatorApp.init.

Definition browsing : CalculatorApp.app := {|
  CalculatorApp.is_dark := false;
  CalculatorApp.degree_mode := true;
  CalculatorApp.memory_value := 0;
  CalculatorApp.history := ["2*e = 5.43656365692"; "-7 % 3 = 2"]%string;
  CalculatorApp.history_index := Some 1%Z;
  CalculatorApp.entry := "-7 % 3";
  CalculatorApp.result_var := EmptyString;
  CalculatorApp.hist_list := ["2*e = 5.43656365692"; "-7 % 3 = 2"]%string;
  CalculatorApp.dialogs := []
|}.

End sample_more.

(** Choose, in a conjunction of alternatives, the alternative that holds by
    computation; a list asked for is the empty one. *)
Ltac pick :=
  lazymatch goal with
  | |- _ /\ _ => split; pick
  | |- _ \/ _ => first [left; pick | right; pick]
  | |- exists _, _ => exists []; rewrite ?app_nil_r; reflexivity
  | |- _ => reflexivity
  end.


(* ===================================================================== *)
(** * Basic facts *)
(* ===================================================================== *)

Section Facts.
Context `{Host}.

Import SafeEvaluator.

(** A comprehension raises as soon as one of its elements does. *)
Lemma comprehension_raised {A B : Type} (f : A -> outcome B) (l : list A) (a : A) :
  List.In a l -> raised (f a) = true -> raised (comprehension f l) = true.
Proof.
  induction l as [| x l IH]; simpl; [intros [] |].
  intros [-> | Hin] Hr.
  - destruct (f a); [discriminate | reflexivity].
  - destruct (f x); [| reflexivity]. simpl.
    specialize (IH Hin Hr).
    destruct (comprehension f l); [discriminate | reflexivity].
Qed.

(** Left to right: the elements before the first one that raises have
    returned, and its exception is that of the comprehension. *)
Lemma comprehension_first_raise {A B : Type} (f : A -> outcome B)
    (before after : list A) (a : A) (bs : list B) (e : exn) :
  comprehension f before = Return bs ->
  f a = Raise e ->
  comprehension f (before ++ a :: after) = Raise e.
Proof.
  revert bs. induction before as [| x l IH]; simpl; intros bs Hb Ha.
  - rewrite Ha. reflexivity.
  - destruct (f x) as [b |]; [| discriminate]. simpl in *.
    destruct (comprehension f l) as [bs' |] eqn:E; [| discriminate].
    rewrite (IH bs' eq_refl Ha). reflexivity.
Qed.

Lemma comprehension_length {A B : Type} (f : A -> outcome B) (l : list A) (bs : list B) :
  comprehension f l = Return bs -> length bs = length l.
Proof.
  revert bs. induction l as [| x l IH]; simpl; intros bs Hb.
  - injection Hb as <-. reflexivity.
  - destruct (f x) as [b |]; [| discriminate]. simpl in Hb.
    destruct (comprehension f l) as [bs' |]; [| discriminate]. simpl in Hb.
    injection Hb as <-. simpl. f_equal. apply IH. reflexivity.
Qed.

(** The equations of [_eval] at the nodes it descends into. *)
Lemma _eval_BinOp (depth : nat) (l : ast.expr) (o : ast.operator) (r : ast.expr)
    (env : gmap string value) :
  _eval (S depth) (ast.BinOp l o r) env =
    match ops (ast.OfOperator o) with
    | None => throw_msg ValueError "Operator not allowed"
    | Some f =>
        let* a := _eval depth l env in
        let* b := _eval depth r env in
        operator_.call f [a; b]
    end.
Proof. reflexivity. Qed.

Lemma _eval_UnaryOp (depth : nat) (o : ast.unaryop) (operand : ast.expr)
    (env : gmap string value) :
  _eval (S depth) (ast.UnaryOp o operand) env =
    match ops (ast.OfUnaryop o) with
    | None => throw_msg ValueError "Unary operator not allowed"
    | Some f => let* a := _eval depth operand env in operator_.call f [a]
    end.
Proof. reflexivity. Qed.

Lemma _eval_Call (depth : nat) (id : string) (args : list ast.expr)
    (keywords : list (option string * ast.expr)) (env : gmap string value) :
  _eval (S depth) (ast.Call (ast.Name id) args keywords) env =
    match env !! id with
    | None => throw_msg ValueError "Function not allowed"
    | Some fn =>
        let* args' := comprehension (fun a => _eval depth a env) args in
        if (length args' =? 0)%nat then
          throw_msg ValueError "Function needs arguments"
        else apply fn args'
    end.
Proof. reflexivity. Qed.

Lemma _eval_Expr (depth : nat) (v : ast.expr) (env : gmap string value) :
  _eval (S depth) (ast.Expr v) env = _eval depth v env.
Proof. reflexivity. Qed.

(** The three ways [eval] ends, once the source has been parsed. *)
Lemma eval_return (is_degrees : bool) (limit : nat) (s : string)
    (tree : ast.Expression) (v : value) :
  ast_parse s = Return tree ->
  _eval limit (ast.body tree) (_build_env is_degrees) = Return v ->
  eval is_degrees limit s = Return v.
Proof. intros Hp He. unfold eval. rewrite Hp. simpl. rewrite He. reflexivity. Qed.

Lemma eval_raise (is_degrees : bool) (limit : nat) (s : string)
    (tree : ast.Expression) (e : exn) :
  ast_parse s = Return tree ->
  _eval limit (ast.body tree) (_build_env is_degrees) = Raise e ->
  eval is_degrees limit s =
    match exn_class e with
    | ZeroDivisionError => Raise e
    | _ => Raise (Exc ValueError (Some "Invalid expression"%string) (Some e))
    end.
Proof. intros Hp He. unfold eval. rewrite Hp. simpl. rewrite He. reflexivity. Qed.

Lemma eval_parse_error (is_degrees : bool) (limit : nat) (s : string) (e : exn) :
  ast_parse s = Raise e ->
  eval is_degrees limit s =
    match exn_class e with
    | ZeroDivisionError => Raise e
    | _ => Raise (Exc ValueError (Some "Invalid expression"%string) (Some e))
    end.
Proof. intros Hp. unfold eval. rewrite Hp. reflexivity. Qed.

(** Whatever [eval] raises is a [ZeroDivisionError] that came up from
    below, or the wrapper around what came up. *)
Lemma eval_raises_two_kinds (is_degrees : bool) (limit : nat) (s : string) (e : exn) :
  eval is_degrees limit s = Raise e ->
  exn_class e = ZeroDivisionError
  \/ exists e0, e = Exc ValueError (Some "Invalid expression"%string) (Some e0)
                /\ exn_class e0 <> ZeroDivisionError.
Proof.
  unfold eval.
  destruct (let* node := ast_parse s in _) as [v | e0]; [discriminate |].
  destruct (exn_class e0) eqn:Hc; intros He; injection He as <-;
    solve [ left; exact Hc
          | right; exists e0; split; [reflexivity | rewrite Hc; discriminate] ].
Qed.

End Facts.

(* ===================================================================== *)
(** * Calls *)
(* ===================================================================== *)

Section Calls.
Context `{Host}.

Import SafeEvaluator.

(** A callee that is not a bare name, or a name the environment does not
    have, is refused before any argument is evaluated. *)
Lemma call_not_allowed (depth : nat) (func : ast.expr) (args : list ast.expr)
    (keywords : list (option string * ast.expr)) (env : gmap string value) :
  (forall id, func = ast.Name id -> env !! id = None) ->
  _eval (S depth) (ast.Call func args keywords) env =
    throw_msg ValueError "Function not allowed".
Proof.
  intros Hf. destruct func; try reflexivity.
  simpl. rewrite (Hf id eq_refl). reflexivity.
Qed.

Lemma call_of_unknown_name (depth : nat) (id : string) (args : list ast.expr)
    (keywords : list (option string * ast.expr)) (env : gmap string value) :
  env !! id = None ->
  _eval (S depth) (ast.Call (ast.Name id) args keywords) env =
    throw_msg ValueError "Function not allowed".
Proof. intros Hf. simpl. rewrite Hf. reflexivity. Qed.

(** A call without positional arguments of a name of the environment. *)
Lemma call_needs_arguments (depth : nat) (id : string) (fn : value)
    (keywords : list (option string * ast.expr)) (env : gmap string value) :
  env !! id = Some fn ->
  _eval (S depth) (ast.Call (ast.Name id) [] keywords) env =
    throw_msg ValueError "Function needs arguments".
Proof. intros Hf. simpl. rewrite Hf. reflexivity. Qed.

(** A call with arguments of a name of the environment: the object bound
    to the name is applied to the values of the positional arguments. *)
Lemma call_applies (depth : nat) (id : string) (fn : value) (args : list ast.expr)
    (keywords : list (option string * ast.expr)) (env : gmap string value)
    (vs : list value) :
  env !! id = Some fn ->
  args <> [] ->
  comprehension (fun a => _eval depth a env) args = Return vs ->
  _eval (S depth) (ast.Call (ast.Name id) args keywords) env = apply fn vs.
Proof.
  intros Hf Hne Hvs. simpl. rewrite Hf, Hvs. simpl.
  pose proof (comprehension_length _ _ _ Hvs) as Hlen.
  destruct vs as [| v vs].
  - destruct args; [congruence | discriminate].
  - reflexivity.
Qed.

(** The arguments are evaluated from left to right: the exception of the
    first one that raises is the exception of the call. *)
Lemma call_first_raise (depth : nat) (id : string) (fn : value)
    (before after : list ast.expr) (a : ast.expr)
    (keywords : list (option string * ast.expr)) (env : gmap string value)
    (vs : list value) (e : exn) :
  env !! id = Some fn ->
  comprehension (fun a => _eval depth a env) before = Return vs ->
  _eval depth a env = Raise e ->
  _eval (S depth) (ast.Call (ast.Name id) (before ++ a :: after) keywords) env = Raise e.
Proof.
  intros Hf Hb Ha. simpl. rewrite Hf.
  rewrite (comprehension_first_raise _ before after a vs e Hb Ha). reflexivity.
Qed.

(** The keyword arguments of a call play no part in its evaluation. *)
Lemma call_keywords_irrelevant (depth : nat) (func : ast.expr) (args : list ast.expr)
    (keywords keywords' : list (option string * ast.expr)) (env : gmap string value) :
  _eval depth (ast.Call func args keywords) env =
  _eval depth (ast.Call func args keywords') env.
Proof. destruct depth; reflexivity. Qed.

(** C10. In a call with at least one positional argument and any keyword
    arguments, the keyword arguments are ignored: whatever they are, they
    are not checked, not evaluated and not passed on, and the call is the
    application of the function to the values of the positional arguments
    alone. *)
Theorem keywords_ignored (depth : nat) (id : string) (fn : value)
    (args : list ast.expr) (keywords : list (option string * ast.expr))
    (env : gmap string value) (vs : list value) :
  env !! id = Some fn ->
  args <> [] ->
  comprehension (fun a => _eval depth a env) args = Return vs ->
  _eval (S depth) (ast.Call (ast.Name id) args keywords) env = apply fn vs
  /\ (forall other : list (option string * ast.expr),
        _eval (S depth) (ast.Call (ast.Name id) args other) env =
        _eval (S depth) (ast.Call (ast.Name id) args keywords) env)
  /\ _eval (S depth) (ast.Call (ast.Name id) args keywords) env =
     _eval (S depth) (ast.Call (ast.Name id) args []) env.
Proof.
  intros Hf Hne Hvs. split; [| split].
  - exact (call_applies depth id fn args keywords env vs Hf Hne Hvs).
  - intros other. apply call_keywords_irrelevant.
  - apply call_keywords_irrelevant.
Qed.

End Calls.

(** [sin(1, x=[2])] in degrees: the list in the keyword argument is never
    looked at, and the call is [_sin(1)]. *)
Lemma keywords_ignored_witness :
  SafeEvaluator._build_env true !! "sin"%string = Some (VFunc (_sin true))
  /\ [sample.num 1] <> []
  /\ comprehension
       (fun a => @SafeEvaluator._eval sample.host 1 a (SafeEvaluator._build_env true))
       [sample.num 1] = Return [VInt 1]
  /\ @SafeEvaluator._eval sample.host 2
       (ast.Call (ast.Name "sin") [sample.num 1]
          [(Some "x"%string, ast.List [sample.num 2])])
       (SafeEvaluator._build_env true)
     = @SafeEvaluator.apply sample.host (VFunc (_sin true)) [VInt 1].
Proof.
  assert (H1 : SafeEvaluator._build_env true !! "sin"%string = Some (VFunc (_sin true)))
    by (vm_compute; reflexivity).
  assert (H2 : [sample.num 1] <> []) by discriminate.
  assert (H3 : comprehension
                 (fun a => @SafeEvaluator._eval sample.host 1 a (SafeEvaluator._build_env true))
                 [sample.num 1] = Return [VInt 1])
    by reflexivity.
  split; [exact H1 | split; [exact H2 | split; [exact H3 |]]].
  exact (proj1 (@keywords_ignored sample.host 1 "sin"%string (VFunc (_sin true))
                  [sample.num 1] [(Some "x"%string, ast.List [sample.num 2])]
                  (SafeEvaluator._build_env true) [VInt 1] H1 H2 H3)).
Defined.

(* ===================================================================== *)
(** * What [eval] returns and what it raises *)
(* ===================================================================== *)

Section Results.
Context `{Host}.

Import SafeEvaluator.

(** A bare name of the environment evaluates to the object bound to it,
    function objects included. *)
Lemma name_evaluates_to_binding (depth : nat) (id : string) (v : value)
    (env : gmap string value) :
  env !! id = Some v ->
  _eval (S depth) (ast.Name id) env = Return v.
Proof. intros Hv. simpl. rewrite Hv. reflexivity. Qed.

Lemma lookup_sin (is_deg : bool) :
  _build_env is_deg !! "sin"%string = Some (VFunc (_sin is_deg)).
Proof. vm_compute. reflexivity. Qed.

Lemma lookup_pi (is_deg : bool) :
  _build_env is_deg !! "pi"%string = Some (VFloat math.pi).
Proof. vm_compute. reflexivity. Qed.

Lemma lookup_foo (is_deg : bool) :
  _build_env is_deg !! "foo"%string = None.
Proof. vm_compute. reflexivity. Qed.

(** C2, at the inputs where the code departs from it. The source [sin] is
    the bare name of an environment entry: [eval] returns the function
    object bound to it. The source [True] is a literal: [eval] returns the
    boolean. Neither result is an integer or a float. *)
Theorem eval_returns_function_and_bool (is_degrees : bool) (limit : nat) :
  0 < limit ->
  ast_parse "sin" = Return {| ast.body := ast.Name "sin" |} ->
  ast_parse "True" = Return {| ast.body := ast.Constant (ast.CBool true) |} ->
  eval is_degrees limit "sin" = Return (VFunc (_sin is_degrees))
  /\ numeric (VFunc (_sin is_degrees)) = false
  /\ eval is_degrees limit "True" = Return (VBool true)
  /\ numeric (VBool true) = false.
Proof.
  intros Hl Hsin Htrue.
  destruct limit as [| d]; [inversion Hl |].
  repeat split.
  - apply (eval_return _ _ _ _ _ Hsin). simpl ast.body.
    apply name_evaluates_to_binding, lookup_sin.
  - apply (eval_return _ _ _ _ _ Htrue). reflexivity.
Qed.

(** C3, as amended. Whatever [eval] raises is either a
    [ZeroDivisionError], or a [ValueError] with the message "Invalid
    expression" whose cause is the exception that came up, of any class
    but [ZeroDivisionError]: a syntax error, an unknown name, a refused
    call, a refused operator and an exhausted recursion depth all arrive
    as that one kind. The source [foo(1)] in particular gives
    [ValueError("Invalid expression")], raised from
    [ValueError("Function not allowed")]. *)
Theorem eval_raises_one_of_two_kinds (is_degrees : bool) (limit limit' : nat)
    (s : string) (e : exn) :
  eval is_degrees limit s = Raise e ->
  0 < limit' ->
  ast_parse "foo(1)" =
    Return {| ast.body := ast.Call (ast.Name "foo") [ast.Constant (ast.CInt 1)] [] |} ->
  (exn_class e = ZeroDivisionError
   \/ (kind e = invalid_expression
       /\ exists e0, exn_cause e = Some e0 /\ exn_class e0 <> ZeroDivisionError))
  /\ eval is_degrees limit' "foo(1)" =
       Raise (Exc ValueError (Some "Invalid expression"%string)
                (Some (Exc ValueError (Some "Function not allowed"%string) None))).
Proof.
  intros He Hl Hfoo. split.
  - destruct (eval_raises_two_kinds _ _ _ _ He) as [Hz | [e0 [-> Hc]]].
    + left. exact Hz.
    + right. split; [reflexivity |]. exists e0. split; [reflexivity | exact Hc].
  - destruct limit' as [| d]; [inversion Hl |].
    rewrite (eval_raise _ _ _ _ _ Hfoo
               (call_of_unknown_name d "foo" _ _ _ (lookup_foo is_degrees))).
    reflexivity.
Qed.

(** A name of the environment that is bound to a number passes the test
    on the callee; the call of the number is then a [TypeError]. *)
Lemma call_of_number (depth : nat) (id : string) (fn : value) (args : list ast.expr)
    (keywords : list (option string * ast.expr)) (env : gmap string value)
    (vs : list value) :
  env !! id = Some fn ->
  number.is_number fn = true ->
  args <> [] ->
  comprehension (fun a => _eval depth a env) args = Return vs ->
  _eval (S depth) (ast.Call (ast.Name id) args keywords) env = throw TypeError.
Proof.
  intros Hf Hn Hne Hvs.
  rewrite (call_applies depth id fn args keywords env vs Hf Hne Hvs).
  destruct fn; try reflexivity. discriminate.
Qed.

(** C5, at the input where the code departs from it. In [pi(1)] the
    callee names a constant: the call is not refused with "Function not
    allowed"; the argument is evaluated, the float bound to [pi] is
    called, and the [TypeError] of that call is what [_eval] raises, which
    [eval] turns into [ValueError("Invalid expression")]. Without
    arguments, [pi()] is refused with "Function needs arguments". *)
Theorem call_of_constant_is_not_refused (is_degrees : bool) (limit : nat) :
  2 <= limit ->
  ast_parse "pi(1)" =
    Return {| ast.body := ast.Call (ast.Name "pi") [ast.Constant (ast.CInt 1)] [] |} ->
  _eval limit (ast.Call (ast.Name "pi") [ast.Constant (ast.CInt 1)] [])
    (_build_env is_degrees) = throw TypeError
  /\ eval is_degrees limit "pi(1)" =
       Raise (Exc ValueError (Some "Invalid expression"%string)
                (Some (Exc TypeError None None)))
  /\ _eval limit (ast.Call (ast.Name "pi") [] []) (_build_env is_degrees) =
       throw_msg ValueError "Function needs arguments".
Proof.
  intros Hl Hp.
  destruct limit as [| [| d]]; [inversion Hl | inversion Hl; lia |].
  assert (Hcall : _eval (S (S d)) (ast.Call (ast.Name "pi") [ast.Constant (ast.CInt 1)] [])
                    (_build_env is_degrees) = throw TypeError).
  { apply (call_of_number (S d) "pi" (VFloat math.pi) _ _ _ [VInt 1]).
    - apply lookup_pi.
    - reflexivity.
    - discriminate.
    - reflexivity. }
  split; [exact Hcall | split].
  - rewrite (eval_raise _ _ _ _ _ Hp Hcall). reflexivity.
  - apply (call_needs_arguments (S d) "pi" (VFloat math.pi)), lookup_pi.
Qed.

End Results.

Lemma eval_returns_function_and_bool_witness :
  0 < 1
  /\ sample.parse "sin" = Return {| ast.body := ast.Name "sin" |}
  /\ sample.parse "True" = Return {| ast.body := ast.Constant (ast.CBool true) |}
  /\ @SafeEvaluator.eval sample.host true 1 "sin" = Return (VFunc (_sin true))
  /\ @SafeEvaluator.eval sample.host true 1 "True" = Return (VBool true).
Proof.
  assert (H0 : 0 < 1) by lia.
  assert (H1 : @ast_parse sample.host "sin" = Return {| ast.body := ast.Name "sin" |})
    by reflexivity.
  assert (H2 : @ast_parse sample.host "True" =
               Return {| ast.body := ast.Constant (ast.CBool true) |})
    by reflexivity.
  pose proof (@eval_returns_function_and_bool sample.host true 1 H0 H1 H2)
    as (R1 & _ & R2 & _).
  split; [exact H0 | split; [exact H1 | split; [exact H2 | split; [exact R1 | exact R2]]]].
Defined.

(** The claim C3 fails on [foo(1)]: what [eval] raises for it has the
    class and the message of what it raises for the malformed source
    ["1 +"], so that the refused call cannot be told from the generic
    failure by its kind. *)
Lemma refused_call_is_generic :
  exists e e' : exn,
    @SafeEvaluator.eval sample.host true 10 "foo(1)" = Raise e
    /\ @SafeEvaluator.eval sample.host true 10 "1 +" = Raise e'
    /\ kind e = kind e'
    /\ kind e = invalid_expression.
Proof.
  exists (Exc ValueError (Some "Invalid expression"%string)
            (Some (Exc ValueError (Some "Function not allowed"%string) None))).
  exists (Exc ValueError (Some "Invalid expression"%string)
            (Some (Exc SyntaxError None None))).
  repeat split.
Qed.

Lemma eval_raises_one_of_two_kinds_witness :
  @SafeEvaluator.eval sample.host false 3 "sin / 0" =
    Raise (Exc ValueError (Some "Invalid expression"%string)
             (Some (Exc TypeError None None)))
  /\ 0 < 1
  /\ sample.parse "foo(1)" =
       Return {| ast.body := ast.Call (ast.Name "foo") [ast.Constant (ast.CInt 1)] [] |}
  /\ @SafeEvaluator.eval sample.host false 1 "foo(1)" =
       Raise (Exc ValueError (Some "Invalid expression"%string)
                (Some (Exc ValueError (Some "Function not allowed"%string) None))).
Proof.
  assert (H1 : @SafeEvaluator.eval sample.host false 3 "sin / 0" =
               Raise (Exc ValueError (Some "Invalid expression"%string)
                        (Some (Exc TypeError None None))))
    by reflexivity.
  assert (H2 : 0 < 1) by lia.
  assert (H3 : @ast_parse sample.host "foo(1)" =
               Return {| ast.body :=
                           ast.Call (ast.Name "foo") [ast.Constant (ast.CInt 1)] [] |})
    by reflexivity.
  split; [exact H1 | split; [exact H2 | split; [exact H3 |]]].
  exact (proj2 (@eval_raises_one_of_two_kinds sample.host false 3 1 "sin / 0" _ H1 H2 H3)).
Defined.

Lemma call_of_constant_is_not_refused_witness :
  2 <= 2
  /\ sample.parse "pi(1)" =
       Return {| ast.body := ast.Call (ast.Name "pi") [ast.Constant (ast.CInt 1)] [] |}
  /\ @SafeEvaluator.eval sample.host true 2 "pi(1)" =
       Raise (Exc ValueError (Some "Invalid expression"%string)
                (Some (Exc TypeError None None))).
Proof.
  assert (H1 : 2 <= 2) by lia.
  assert (H2 : @ast_parse sample.host "pi(1)" =
               Return {| ast.body :=
                           ast.Call (ast.Name "pi") [ast.Constant (ast.CInt 1)] [] |})
    by reflexivity.
  split; [exact H1 | split; [exact H2 |]].
  exact (proj1 (proj2 (@call_of_constant_is_not_refused sample.host true 2 H1 H2))).
Defined.

(* ===================================================================== *)
(** * The walk over the tree *)
(* ===================================================================== *)

Section Walk.
Context `{Host}.

Import SafeEvaluator.

(** A node [_eval] refuses is refused with a [ValueError] that does not
    depend on what is below the node, on the environment or on the host:
    nothing of the construct is evaluated. *)
Lemma refusal_raises (depth : nat) (node : ast.expr) (env : gmap string value)
    (msg : string) :
  walk.refusal node = Some msg ->
  _eval (S depth) node env = throw_msg ValueError msg.
Proof.
  intros Hr.
  destruct node as [ | | ? o ? | o ? | | | | | | | | | | | | | func ? ? | | | c
                     | | | | | | | | ];
    try (injection Hr as <-; reflexivity); try discriminate.
  - rewrite _eval_BinOp. unfold walk.refusal in Hr.
    destruct (ops (ast.OfOperator o)); [discriminate |].
    injection Hr as <-. reflexivity.
  - rewrite _eval_UnaryOp. unfold walk.refusal in Hr.
    destruct (ops (ast.OfUnaryop o)); [discriminate |].
    injection Hr as <-. reflexivity.
  - destruct func; try (injection Hr as <-; reflexivity); discriminate.
  - destruct c; try discriminate; injection Hr as <-; reflexivity.
Qed.

(** Each construct the specification lists is refused in that way, apart
    from the boolean literals. *)
Lemma listed_construct_refused (node : ast.expr) :
  walk.listed_construct node = true ->
  walk.is_bool_literal node = false ->
  exists msg, walk.refusal node = Some msg.
Proof.
  intros Hl Hb.
  destruct node as [ | | | o ? | | | | | | | | | | | | | | | | c | | | | | | | | ];
    simpl in *; try discriminate; eauto.
  - destruct o; try discriminate. simpl. eauto.
  - destruct c; try discriminate; eauto.
Qed.

(** A refused node that is reached through operands makes the whole
    evaluation fail, at any depth. *)
Lemma reached_refusal_raises (bad node : ast.expr) :
  walk.reached bad node ->
  (exists msg, walk.refusal bad = Some msg) ->
  forall (depth : nat) (env : gmap string value),
    raised (_eval depth node env) = true.
Proof.
  intros Hreach [msg Hmsg].
  induction Hreach as [| c t Hin Hreach IH]; intros depth env.
  - destruct depth; [reflexivity |].
    rewrite (refusal_raises depth bad env msg Hmsg). reflexivity.
  - destruct depth as [| d]; [reflexivity |].
    destruct t as [ | | l o r | o x | | | | | | | | | | | | | func args keywords | | |
                  | | | | | | | | v ];
      simpl in Hin; try contradiction.
    + (* BinOp *)
      rewrite _eval_BinOp. destruct (ops (ast.OfOperator o)); [| reflexivity].
      destruct Hin as [<- | [<- | []]].
      * pose proof (IH d env) as Hc.
        destruct (_eval d l env); [discriminate | reflexivity].
      * destruct (_eval d l env); [| reflexivity]. cbn [py.bind].
        pose proof (IH d env) as Hc.
        destruct (_eval d r env); [discriminate | reflexivity].
    + (* UnaryOp *)
      rewrite _eval_UnaryOp. destruct (ops (ast.OfUnaryop o)); [| reflexivity].
      destruct Hin as [<- | []].
      pose proof (IH d env) as Hc.
      destruct (_eval d x env); [discriminate | reflexivity].
    + (* Call *)
      destruct func as [ | | | | | | | | | | | | | | | | | | | | | | | id | | | | ];
        try reflexivity.
      rewrite _eval_Call. destruct (env !! id); [| reflexivity].
      pose proof (comprehension_raised (fun a => _eval d a env) args c Hin (IH d env)) as Hc.
      destruct (comprehension (fun a => _eval d a env) args); [discriminate | reflexivity].
    + (* Expr *)
      destruct Hin as [<- | []]. simpl. apply IH.
Qed.


End Walk.



(* ===================================================================== *)
(** * Division by zero *)
(* ===================================================================== *)

Section Division.
Context `{Host}.

Import SafeEvaluator.

(** The three dividing tokens are keys of [ops]. *)
Lemma dividing_token_allowed (o : ast.operator) :
  division.token o = true ->
  exists f, ops (ast.OfOperator o) = Some f
            /\ (f = op.truediv \/ f = op.mod_ \/ f = op.floordiv).
Proof.
  destruct o; try discriminate; intros _; eexists; (split; [reflexivity |]); auto.
Qed.

(** [/], [%] and [//] applied to an accepted dividend and a real zero:
    each of the three raises [ZeroDivisionError]. *)
Lemma dividing_by_zero (f : op.function) (a b : value) :
  f = op.truediv \/ f = op.mod_ \/ f = op.floordiv ->
  division.zero b = true ->
  division.dividend a b = true ->
  operator_.call f [a; b] = throw ZeroDivisionError.
Proof.
  intros Hf Hz Hd.
  assert (Hcall : operator_.call f [a; b] = operator_.binary f a b)
    by (destruct Hf as [-> | [-> | ->]]; reflexivity).
  rewrite Hcall. clear Hcall.
  destruct b as [n | [|] | y | |]; simpl in Hz; try discriminate.
  - (* an integer zero *)
    apply Z.eqb_eq in Hz. subst n.
    destruct a as [m | c | x | |]; simpl in Hd; try discriminate;
      destruct Hf as [-> | [-> | ->]]; reflexivity.
  - (* False *)
    destruct a as [m | c | x | |]; simpl in Hd; try discriminate;
      destruct Hf as [-> | [-> | ->]]; reflexivity.
  - (* a float zero *)
    destruct a as [m | c | x | |]; simpl in Hd; try discriminate.
    + unfold operator_.binary. simpl.
      destruct (number.long_as_double m) as [x |]; [| discriminate]. simpl.
      destruct Hf as [-> | [-> | ->]]; simpl; rewrite Hz; reflexivity.
    + unfold operator_.binary. simpl.
      destruct (number.long_as_double (Z.b2z c)) as [x |]; [| discriminate]. simpl.
      destruct Hf as [-> | [-> | ->]]; simpl; rewrite Hz; reflexivity.
    + unfold operator_.binary. simpl.
      destruct Hf as [-> | [-> | ->]]; simpl; rewrite Hz; reflexivity.
Qed.

(** Once the evaluation comes to such an application, [_eval] raises
    [ZeroDivisionError]: nothing between the application and the root
    handles the exception. *)
Lemma applies_raises (env : gmap string value) (depth : nat) (node : ast.expr) :
  division.applies env depth node ->
  _eval depth node env = throw ZeroDivisionError.
Proof.
  induction 1 as [d l o r a b Ho Hl Hr Hz Hd | d l o r f Ho _ IH
                 | d l o r f a Ho Hl _ IH | d o x f Ho _ IH
                 | d id fn before x after keywords vs Hf Hb _ IH | d v _ IH].
  - rewrite _eval_BinOp.
    destruct (dividing_token_allowed o Ho) as [f [-> Hf]].
    rewrite Hl, Hr. cbn [py.bind]. apply dividing_by_zero; assumption.
  - rewrite _eval_BinOp, Ho, IH. reflexivity.
  - rewrite _eval_BinOp, Ho, Hl, IH. reflexivity.
  - rewrite _eval_UnaryOp, Ho, IH. reflexivity.
  - apply (call_first_raise d id fn before after x keywords env vs _ Hf Hb IH).
  - rewrite _eval_Expr. exact IH.
Qed.

(** C4, as amended. When the evaluation of an expression comes to apply
    [/], [%] or [//] to a real zero divisor and to a dividend that is a
    float or an integer (in front of a float zero, an integer that
    [float()] can convert), [eval] raises [ZeroDivisionError]: the same
    exception for the three operators, let through as it is, and of
    another class than the [ValueError] of an invalid expression. *)
Theorem zero_division_raised (is_degrees : bool) (limit : nat) (s : string)
    (tree : ast.Expression) :
  ast_parse s = Return tree ->
  division.applies (_build_env is_degrees) limit (ast.body tree) ->
  eval is_degrees limit s = Raise (Exc ZeroDivisionError None None)
  /\ fst (kind (Exc ZeroDivisionError None None)) <> fst invalid_expression
  /\ (forall (depth : nat) (l r : ast.expr) (a b : value) (env : gmap string value),
        _eval depth l env = Return a ->
        _eval depth r env = Return b ->
        division.zero b = true ->
        division.dividend a b = true ->
        _eval (S depth) (ast.BinOp l ast.Div r) env = throw ZeroDivisionError
        /\ _eval (S depth) (ast.BinOp l ast.Mod r) env = throw ZeroDivisionError
        /\ _eval (S depth) (ast.BinOp l ast.FloorDiv r) env = throw ZeroDivisionError).
Proof.
  intros Hp Ha. split; [| split; [discriminate |]].
  - rewrite (eval_raise _ _ _ _ _ Hp (applies_raises _ _ _ Ha)). reflexivity.
  - intros depth l r a b env Hl Hr Hz Hd.
    repeat split; apply applies_raises;
      apply (division.applies_here env depth l _ r a b); auto.
Qed.

End Division.

(** The claim C4 fails on [sin / 0] and on [10**400 / 0.0]. In both the
    operands are evaluated and the divisor is zero. In the first the
    dividend is a function object, in the second an integer too large for
    a float: the division raises [TypeError] and [OverflowError], and what
    [eval] raises is the [ValueError] of an invalid expression. *)
Lemma zero_divisor_without_ZeroDivisionError :
  (@SafeEvaluator._eval sample.host 1 (ast.Name "sin") (SafeEvaluator._build_env true)
     = Return (VFunc (_sin true))
   /\ @SafeEvaluator._eval sample.host 1 (sample.num 0) (SafeEvaluator._build_env true)
      = Return (VInt 0)
   /\ division.zero (VInt 0) = true
   /\ @SafeEvaluator.eval sample.host true 2 "sin / 0" =
        Raise (Exc ValueError (Some "Invalid expression"%string)
                 (Some (Exc TypeError None None))))
  /\ (@SafeEvaluator._eval sample.host 2
        (ast.BinOp (sample.num 10) ast.Pow (sample.num 400))
        (SafeEvaluator._build_env true) = Return (VInt (10 ^ 400))
      /\ @SafeEvaluator._eval sample.host 2 (ast.Constant (ast.CFloat 0))
           (SafeEvaluator._build_env true) = Return (VFloat 0)
      /\ division.zero (VFloat 0) = true
      /\ @SafeEvaluator.eval sample.host true 3 "10**400 / 0.0" =
           Raise (Exc ValueError (Some "Invalid expression"%string)
                    (Some (Exc OverflowError None None)))).
Proof.
  split.
  - split; [reflexivity | split; [reflexivity | split; [reflexivity |]]].
    vm_compute. reflexivity.
  - split; [vm_compute; reflexivity | split; [reflexivity | split; [reflexivity |]]].
    vm_compute. reflexivity.
Qed.

(** The three examples of the specification. *)
Lemma division_examples :
  @SafeEvaluator.eval sample.host true 2 "1/0" = Raise (Exc ZeroDivisionError None None)
  /\ @SafeEvaluator.eval sample.host true 2 "5 % 0" = Raise (Exc ZeroDivisionError None None)
  /\ @SafeEvaluator.eval sample.host true 2 "7 // 0" = Raise (Exc ZeroDivisionError None None).
Proof. repeat split. Qed.

Lemma zero_division_raised_witness :
  sample.parse "1/0" =
    Return {| ast.body := ast.BinOp (sample.num 1) ast.Div (sample.num 0) |}
  /\ @division.applies sample.host (SafeEvaluator._build_env true) 2
       (ast.BinOp (sample.num 1) ast.Div (sample.num 0))
  /\ @SafeEvaluator.eval sample.host true 2 "1/0" = Raise (Exc ZeroDivisionError None None).
Proof.
  assert (H1 : @ast_parse sample.host "1/0" =
               Return {| ast.body := ast.BinOp (sample.num 1) ast.Div (sample.num 0) |})
    by reflexivity.
  assert (H2 : @division.applies sample.host (SafeEvaluator._build_env true) 2
                 (ast.body {| ast.body := ast.BinOp (sample.num 1) ast.Div (sample.num 0) |})).
  { apply (division.applies_here _ 1 _ _ _ (VInt 1) (VInt 0)); reflexivity. }
  split; [exact H1 | split; [exact H2 |]].
  exact (proj1 (@zero_division_raised sample.host true 2 "1/0" _ H1 H2)).
Defined.

(* ===================================================================== *)
(** * The environment *)
(* ===================================================================== *)

Section Environment.
Context `{Host}.

Import SafeEvaluator.

Lemma dom_build_env (is_deg : bool) :
  dom (_build_env is_deg) =
    ({[ "pi"; "e"; "sin"; "cos"; "tan"; "log"; "ln"; "sqrt"; "abs"; "round" ]}%string
       : gset string).
Proof. unfold _build_env. rewrite !dom_insert_L, dom_empty_L. set_solver. Qed.

(** A bare name that the environment does not have. *)
Lemma name_unknown (depth : nat) (id : string) (env : gmap string value) :
  env !! id = None ->
  _eval (S depth) (ast.Name id) env =
    throw_msg ValueError (String.append "Unknown name: " id).
Proof. intros Hn. simpl. rewrite Hn. reflexivity. Qed.

(** [round_half_even m e] is an integer nearest to [m * 2^e], and the even
    one of the two when [m * 2^e] is half-way between two integers. *)
Lemma round_half_even_nearest (m e : Z) :
  (e < 0)%Z ->
  (2 * Z.abs (number.round_half_even m e * 2 ^ (- e) - m) <= 2 ^ (- e))%Z
  /\ ((2 * Z.abs (number.round_half_even m e * 2 ^ (- e) - m) = 2 ^ (- e))%Z ->
      Z.even (number.round_half_even m e) = true).
Proof.
  intros He. unfold number.round_half_even.
  destruct (0 <=? e)%Z eqn:Hle; [apply Z.leb_le in Hle; lia |].
  set (d := (2 ^ (- e))%Z).
  assert (Hd : (0 < d)%Z) by (apply Z.pow_pos_nonneg; lia).
  pose proof (Z.div_mod m d ltac:(lia)) as Hdm.
  pose proof (Z.mod_pos_bound m d Hd) as Hb.
  set (q := (m / d)%Z) in *. set (r := (m mod d)%Z) in *.
  assert (Hq1 : ((q + 1) * d = d * q + d)%Z) by ring.
  assert (Hq0 : (q * d = d * q)%Z) by ring.
  clearbody q r d.
  destruct (Z.compare_spec (2 * r) d) as [Hc | Hc | Hc].
  - destruct (Z.even q) eqn:Hev.
    + split; [lia | intros _; exact Hev].
    + split; [lia |]. intros _.
      rewrite Z.even_add, Hev. reflexivity.
  - split; [lia | intros Ht; exfalso; lia].
  - split; [lia | intros Ht; exfalso; lia].
Qed.

(** C6. The environment has exactly the ten names [pi], [e], [sin], [cos],
    [tan], [log], [ln], [sqrt], [abs] and [round]. [pi] and [e] are bound
    to [math.pi] and [math.e]; [sin], [cos] and [tan] to the closures
    built for the current angle mode; [log] to [math.log10], [ln] to
    [math.log], [sqrt] to [math.sqrt], [abs] and [round] to the built-in
    functions; [round] takes one or two arguments and rounds a float to a
    nearest integer, to the even one in a tie. A bare name that is not one
    of the ten is refused by [_eval] with "Unknown name: " followed by the
    name, which [eval] raises "Invalid expression" from. *)
Theorem environment_contents (is_deg : bool) :
  dom (_build_env is_deg) =
    ({[ "pi"; "e"; "sin"; "cos"; "tan"; "log"; "ln"; "sqrt"; "abs"; "round" ]}%string
       : gset string)
  /\ _build_env is_deg !! "pi"%string = Some (VFloat math.pi)
  /\ _build_env is_deg !! "e"%string = Some (VFloat math.e)
  /\ _build_env is_deg !! "sin"%string = Some (VFunc (_sin is_deg))
  /\ _build_env is_deg !! "cos"%string = Some (VFunc (_cos is_deg))
  /\ _build_env is_deg !! "tan"%string = Some (VFunc (_tan is_deg))
  /\ _build_env is_deg !! "log"%string = Some (VFunc math_log10)
  /\ _build_env is_deg !! "ln"%string = Some (VFunc math_log)
  /\ _build_env is_deg !! "sqrt"%string = Some (VFunc math_sqrt)
  /\ _build_env is_deg !! "abs"%string = Some (VFunc builtin_abs)
  /\ _build_env is_deg !! "round"%string = Some (VFunc builtin_round)
  /\ (forall args, apply (VFunc math_log10) args = host_log10 args)
  /\ (forall args, apply (VFunc math_log) args = host_log args)
  /\ (forall v, apply (VFunc math_sqrt) [v] = math.math_1 PrimFloat.sqrt false v)
  /\ (forall n, apply (VFunc builtin_abs) [VInt n] = Return (VInt (Z.abs n)))
  /\ (forall x, apply (VFunc builtin_abs) [VFloat x] = Return (VFloat (PrimFloat.abs x)))
  /\ (forall x s m e,
        Prim2SF x = S754_finite s m e ->
        apply (VFunc builtin_round) [VFloat x] =
          Return (VInt (number.round_half_even (if s then Z.neg m else Z.pos m) e)))
  /\ (forall m e : Z,
        (e < 0)%Z ->
        (2 * Z.abs (number.round_half_even m e * 2 ^ (- e) - m) <= 2 ^ (- e))%Z
        /\ ((2 * Z.abs (number.round_half_even m e * 2 ^ (- e) - m) = 2 ^ (- e))%Z ->
            Z.even (number.round_half_even m e) = true))
  /\ apply (VFunc builtin_round) [VFloat 0.5] = Return (VInt 0)
  /\ apply (VFunc builtin_round) [VFloat 1.5] = Return (VInt 2)
  /\ apply (VFunc builtin_round) [VFloat 2.5] = Return (VInt 2)
  /\ apply (VFunc builtin_round) [VInt 25; VInt (-1)] = Return (VInt 20)
  /\ (forall x k, apply (VFunc builtin_round) [VFloat x; VInt k] = float_round_ndigits x k)
  /\ (forall (depth : nat) (id : string),
        id ∉ dom (_build_env is_deg) ->
        _eval (S depth) (ast.Name id) (_build_env is_deg) =
          throw_msg ValueError (String.append "Unknown name: " id)
        /\ (forall s : string,
              ast_parse s = Return {| ast.body := ast.Name id |} ->
              eval is_deg (S depth) s =
                Raise (Exc ValueError (Some "Invalid expression"%string)
                         (Some (Exc ValueError
                                  (Some (String.append "Unknown name: " id)) None))))).
Proof.
  split; [apply dom_build_env |].
  do 10 (split; [vm_compute; reflexivity |]).
  do 5 (split; [reflexivity |]).
  split.
  { intros x s m e Hx. simpl. unfold number.float_round. rewrite Hx. reflexivity. }
  split; [exact round_half_even_nearest |].
  do 4 (split; [vm_compute; reflexivity |]).
  split; [reflexivity |].
  intros depth id Hid.
  pose proof (name_unknown depth id (_build_env is_deg)
                (proj1 (not_elem_of_dom _ _) Hid)) as Hn.
  split; [exact Hn |].
  intros s Hp. rewrite (eval_raise _ _ _ _ _ Hp Hn). reflexivity.
Qed.

End Environment.

Lemma environment_contents_witness :
  ("foo"%string ∉ dom (SafeEvaluator._build_env true))
  /\ @SafeEvaluator._eval sample.host 1 (ast.Name "foo") (SafeEvaluator._build_env true) =
       throw_msg ValueError "Unknown name: foo".
Proof.
  assert (H1 : "foo"%string ∉ dom (SafeEvaluator._build_env true)).
  { apply not_elem_of_dom. vm_compute. reflexivity. }
  split; [exact H1 |].
  pose proof (@environment_contents sample.host true) as E.
  do 23 (destruct E as [_ E]).
  exact (proj1 (E 0 "foo"%string H1)).
Defined.

(** Three more examples of the specification: [sqrt(16) + 2**3], [pi] and
    [2*e]. *)
Lemma documented_values :
  @SafeEvaluator.eval sample.host true 3 "sqrt(16) + 2**3" = Return (VFloat 12)
  /\ @SafeEvaluator.eval sample.host true 1 "pi" = Return (VFloat 0x1.921fb54442d18p+1)
  /\ @SafeEvaluator.eval sample.host true 2 "2*e" = Return (VFloat 0x1.5bf0a8b145769p+2).
Proof. repeat split; vm_compute; reflexivity. Qed.

(* ===================================================================== *)
(** * Degrees and radians *)
(* ===================================================================== *)

Section Trigonometry.
Context `{Host}.

Import SafeEvaluator.

(** [math.radians(90)] is the float nearest to a quarter turn. *)
Lemma radians_90 :
  math.radians (VInt 90) = Return (VFloat 0x1.921fb54442d18p+0).
Proof. vm_compute. reflexivity. Qed.

(** The wrapper of the [math] module returns what the C function returns
    whenever that is finite. *)
Lemma math_1_finite (func : float -> float) (can_overflow : bool) (v : value) (x : float) :
  number.as_double v = Return x ->
  PrimFloat.is_finite (func x) = true ->
  math.math_1 func can_overflow v = Return (VFloat (func x)).
Proof.
  intros Hx Hf. unfold math.math_1. rewrite Hx. cbn [py.bind].
  unfold PrimFloat.is_finite in Hf.
  apply negb_true_iff, orb_false_iff in Hf. destruct Hf as [-> ->].
  reflexivity.
Qed.

(** The call [sin(n)] of the source, for an integer literal [n]. *)
Lemma sin_of_literal (is_deg : bool) (depth : nat) (n : Z) :
  _eval (S (S depth)) (ast.Call (ast.Name "sin") [ast.Constant (ast.CInt n)] [])
    (_build_env is_deg) =
  trig_body math.sin (VInt n) (VBool is_deg).
Proof.
  rewrite (call_applies (S depth) "sin" (VFunc (_sin is_deg)) _ _ _ [VInt n]).
  - reflexivity.
  - apply lookup_sin.
  - discriminate.
  - reflexivity.
Qed.

(** The closures have a second parameter, [is_deg], whose default is the
    flag: a call with two arguments, which the evaluator lets through,
    chooses the unit by the truth value of the second one. *)
Lemma trig_second_argument (is_deg : bool) (x d : value) :
  apply (VFunc (_sin is_deg)) [x; d] =
    if number.truthy d then let* r := math.radians x in math.sin r else math.sin x.
Proof. reflexivity. Qed.


End Trigonometry.


(* ===================================================================== *)
(** * Blank sources *)
(* ===================================================================== *)

Section Blank.
Context `{Host}.

Import SafeEvaluator.

(** C8. [eval] has no case of its own for an empty or blank source: it
    hands it to the parser. With a parser that rejects every blank string
    with a [SyntaxError], as CPython's does, a blank source fails, and
    what [eval] raises for it has the class and the message of what it
    raises for a malformed source: [ValueError], "Invalid expression". *)
Theorem blank_source_is_invalid (is_degrees : bool) (limit : nat)
    (s malformed : string) (e' : exn) :
  (forall b : string, walk.whitespace_only b = true ->
     exists e, ast_parse b = Raise e /\ exn_class e = SyntaxError) ->
  walk.whitespace_only s = true ->
  ast_parse malformed = Raise e' ->
  exn_class e' = SyntaxError ->
  exists e : exn,
    ast_parse s = Raise e
    /\ eval is_degrees limit s =
         Raise (Exc ValueError (Some "Invalid expression"%string) (Some e))
    /\ eval is_degrees limit malformed =
         Raise (Exc ValueError (Some "Invalid expression"%string) (Some e'))
    /\ kind (Exc ValueError (Some "Invalid expression"%string) (Some e)) =
       kind (Exc ValueError (Some "Invalid expression"%string) (Some e'))
    /\ kind (Exc ValueError (Some "Invalid expression"%string) (Some e)) =
       invalid_expression.
Proof.
  intros Hparser Hs Hm Hc'.
  destruct (Hparser s Hs) as [e [He Hc]].
  exists e. split; [exact He |]. split; [| split; [| split; reflexivity]].
  - rewrite (eval_parse_error _ _ _ _ He), Hc. reflexivity.
  - rewrite (eval_parse_error _ _ _ _ Hm), Hc'. reflexivity.
Qed.

End Blank.

(** The parser of the sample host rejects the blank strings. *)
Lemma blank_differs (b k : string) :
  walk.whitespace_only b = true ->
  walk.whitespace_only k = false ->
  String.eqb b k = false.
Proof.
  intros Hb Hk. destruct (String.eqb b k) eqn:E; [| reflexivity].
  apply String.eqb_eq in E. subst k. congruence.
Qed.

Lemma assoc_blank (b : string) (l : list (string * ast.expr)) :
  walk.whitespace_only b = true ->
  Forall (fun kt => walk.whitespace_only (fst kt) = false) l ->
  sample.assoc b l = None.
Proof.
  intros Hb Hl. induction Hl as [| [k t] l Hk _ IH]; [reflexivity |].
  simpl. rewrite (blank_differs b k Hb Hk). exact IH.
Qed.

Lemma sample_parse_blank (b : string) :
  walk.whitespace_only b = true ->
  exists e, sample.parse b = Raise e /\ exn_class e = SyntaxError.
Proof.
  intros Hb. exists (Exc SyntaxError None None). split; [| reflexivity].
  unfold sample.parse. rewrite (assoc_blank b sample.parses Hb); [reflexivity |].
  repeat constructor.
Qed.

Lemma blank_source_is_invalid_witness :
  (forall b : string, walk.whitespace_only b = true ->
     exists e, sample.parse b = Raise e /\ exn_class e = SyntaxError)
  /\ walk.whitespace_only "  " = true
  /\ sample.parse "1 +" = Raise (Exc SyntaxError None None)
  /\ exn_class (Exc SyntaxError None None) = SyntaxError
  /\ exists e : exn,
       sample.parse "  " = Raise e
       /\ @SafeEvaluator.eval sample.host true 10 "  " =
            Raise (Exc ValueError (Some "Invalid expression"%string) (Some e))
       /\ @SafeEvaluator.eval sample.host true 10 "1 +" =
            Raise (Exc ValueError (Some "Invalid expression"%string)
                     (Some (Exc SyntaxError None None))).
Proof.
  assert (H2 : walk.whitespace_only "  " = true) by reflexivity.
  assert (H3 : @ast_parse sample.host "1 +" = Raise (Exc SyntaxError None None))
    by reflexivity.
  assert (H4 : exn_class (Exc SyntaxError None None) = SyntaxError) by reflexivity.
  split; [exact sample_parse_blank | split; [exact H2 | split; [exact H3 |
  split; [exact H4 |]]]].
  destruct (@blank_source_is_invalid sample.host true 10 "  " "1 +" _
              sample_parse_blank H2 H3 H4) as (e & R1 & R2 & R3 & _).
  exists e. split; [exact R1 | split; [exact R2 | exact R3]].
Defined.

(* ===================================================================== *)
(** * Nesting depth *)
(* ===================================================================== *)

Section Depth.
Context `{Host}.

Import SafeEvaluator.

Lemma height_of_arguments (args : list ast.expr) (d : nat) :
  d < fold_right (fun a m => Nat.max (walk.height a) m) 0 args ->
  exists a, List.In a args /\ d < walk.height a.
Proof.
  induction args as [| x args IH]; simpl; intros Hd; [lia |].
  destruct (Nat.max_spec (walk.height x)
              (fold_right (fun a m => Nat.max (walk.height a) m) 0 args))
    as [[_ Hm] | [_ Hm]]; rewrite Hm in Hd.
  - destruct (IH Hd) as [a [Ha Hh]]. exists a. auto.
  - exists x. auto.
Qed.

(** An expression nested deeper than the depth left cannot be evaluated. *)
Lemma too_deep_raises (depth : nat) :
  forall (node : ast.expr) (env : gmap string value),
    depth < walk.height node ->
    raised (_eval depth node env) = true.
Proof.
  induction depth as [| d IH]; intros node env Hh; [reflexivity |].
  destruct node as [ | | l o r | o x | | | | | | | | | | | | | func args keywords | | |
                     | | | | | | | | v ];
    simpl in Hh; try lia.
  - rewrite _eval_BinOp. destruct (ops (ast.OfOperator o)); [| reflexivity].
    destruct (Nat.max_spec (walk.height l) (walk.height r)) as [[_ Hm] | [_ Hm]];
      rewrite Hm in Hh.
    + destruct (_eval d l env); [| reflexivity]. cbn [py.bind].
      pose proof (IH r env ltac:(lia)) as Hr.
      destruct (_eval d r env); [discriminate | reflexivity].
    + pose proof (IH l env ltac:(lia)) as Hr.
      destruct (_eval d l env); [discriminate | reflexivity].
  - rewrite _eval_UnaryOp. destruct (ops (ast.OfUnaryop o)); [| reflexivity].
    pose proof (IH x env ltac:(lia)) as Hr.
    destruct (_eval d x env); [discriminate | reflexivity].
  - destruct func as [ | | | | | | | | | | | | | | | | | | | | | | | id | | | | ];
      try reflexivity.
    rewrite _eval_Call. destruct (env !! id); [| reflexivity].
    destruct (height_of_arguments args d ltac:(lia)) as [a [Ha Hd]].
    pose proof (comprehension_raised (fun a => _eval d a env) args a Ha (IH a env Hd)) as Hr.
    destruct (comprehension (fun a => _eval d a env) args); [discriminate | reflexivity].
  - rewrite _eval_Expr. apply IH. lia.
Qed.

Lemma comprehension_returns_more {A B : Type} (f g : A -> outcome B) (l : list A)
    (bs : list B) :
  (forall a b, f a = Return b -> g a = Return b) ->
  comprehension f l = Return bs ->
  comprehension g l = Return bs.
Proof.
  intros Hfg. revert bs. induction l as [| x l IH]; simpl; intros bs Hb; [exact Hb |].
  destruct (f x) as [b |] eqn:Hx; [| discriminate]. cbn [py.bind] in Hb.
  rewrite (Hfg x b Hx). cbn [py.bind].
  destruct (comprehension f l) as [bs' |]; [| discriminate].
  rewrite (IH bs' eq_refl). exact Hb.
Qed.

(** What is evaluated with some depth left is evaluated, to the same
    value, with more: the evaluator sets no bound of its own. *)
Lemma more_depth_same_value (depth : nat) :
  forall (node : ast.expr) (env : gmap string value) (v : value),
    _eval depth node env = Return v ->
    _eval (S depth) node env = Return v.
Proof.
  induction depth as [| d IH]; intros node env v Hv; [discriminate |].
  destruct node as [ | | l o r | o x | | | | | | | | | | | | | func args keywords | | |
                     | | | | | | | | w ];
    try exact Hv.
  - rewrite _eval_BinOp in Hv |- *.
    destruct (ops (ast.OfOperator o)); [| discriminate].
    destruct (_eval d l env) as [a |] eqn:Hl; [| discriminate].
    rewrite (IH l env a Hl). cbn [py.bind] in Hv |- *.
    destruct (_eval d r env) as [b |] eqn:Hr; [| discriminate].
    rewrite (IH r env b Hr). exact Hv.
  - rewrite _eval_UnaryOp in Hv |- *.
    destruct (ops (ast.OfUnaryop o)); [| discriminate].
    destruct (_eval d x env) as [a |] eqn:Hx; [| discriminate].
    rewrite (IH x env a Hx). exact Hv.
  - destruct func as [ | | | | | | | | | | | | | | | | | | | | | | | id | | | | ];
      try exact Hv.
    rewrite _eval_Call in Hv |- *.
    destruct (env !! id); [| discriminate].
    destruct (comprehension (fun a => _eval d a env) args) as [vs |] eqn:Hvs;
      [| discriminate].
    rewrite (comprehension_returns_more _ (fun a => _eval (S d) a env) args vs
               (fun a b => IH a env b) Hvs).
    exact Hv.
  - rewrite _eval_Expr in Hv |- *. apply IH. exact Hv.
Qed.

Lemma comprehension_returns_or_raises {A B : Type} (f g : A -> outcome B)
    (l : list A) (bs : list B) (e : exn) :
  (forall a b, g a = Return b -> f a = Return b \/ f a = Raise e) ->
  comprehension g l = Return bs ->
  comprehension f l = Return bs \/ comprehension f l = Raise e.
Proof.
  intros Hfg. revert bs. induction l as [| x l IH]; simpl; intros bs Hb; [left; exact Hb |].
  destruct (g x) as [b |] eqn:Hx; [| discriminate]. cbn [py.bind] in Hb.
  destruct (comprehension g l) as [bs' |]; [| discriminate]. cbn [py.bind] in Hb.
  destruct (Hfg x b Hx) as [-> | ->]; [| right; reflexivity]. cbn [py.bind].
  destruct (IH bs' eq_refl) as [-> | ->]; [left; exact Hb | right; reflexivity].
Qed.

(** What is evaluated with some depth left either is evaluated, to the
    same value, with less, or exhausts it: with less depth nothing else
    can go wrong. *)
Lemma less_depth_same_value_or_exhausted (depth : nat) :
  forall (more : nat) (node : ast.expr) (env : gmap string value) (v : value),
    depth <= more ->
    _eval more node env = Return v ->
    _eval depth node env = Return v \/ _eval depth node env = throw RecursionError.
Proof.
  induction depth as [| d IH]; intros more node env v Hle Hv; [right; reflexivity |].
  destruct more as [| m]; [lia |].
  assert (Hdm : d <= m) by lia.
  destruct node as [ | | l o r | o x | | | | | | | | | | | | | func args keywords | | |
                     | | | | | | | | w ];
    try (left; exact Hv).
  - rewrite _eval_BinOp in Hv |- *.
    destruct (ops (ast.OfOperator o)); [| discriminate].
    destruct (_eval m l env) as [a |] eqn:Hl; [| discriminate].
    cbn [py.bind] in Hv.
    destruct (IH m l env a Hdm Hl) as [-> | ->]; [| right; reflexivity].
    cbn [py.bind].
    destruct (_eval m r env) as [b |] eqn:Hr; [| discriminate].
    destruct (IH m r env b Hdm Hr) as [-> | ->]; [| right; reflexivity].
    left. exact Hv.
  - rewrite _eval_UnaryOp in Hv |- *.
    destruct (ops (ast.OfUnaryop o)); [| discriminate].
    destruct (_eval m x env) as [a |] eqn:Hx; [| discriminate].
    destruct (IH m x env a Hdm Hx) as [-> | ->]; [| right; reflexivity].
    left. exact Hv.
  - destruct func as [ | | | | | | | | | | | | | | | | | | | | | | | id | | | | ];
      try (left; exact Hv).
    rewrite _eval_Call in Hv |- *.
    destruct (env !! id); [| discriminate].
    destruct (comprehension (fun a => _eval m a env) args) as [vs |] eqn:Hvs;
      [| discriminate].
    destruct (comprehension_returns_or_raises
                (fun a => _eval d a env) (fun a => _eval m a env) args vs
                (Exc RecursionError None None)
                (fun a b => IH m a env b Hdm) Hvs) as [-> | ->];
      [| right; reflexivity].
    left. exact Hv.
  - rewrite _eval_Expr in Hv |- *. exact (IH m w env v Hdm Hv).
Qed.

Lemma more_depth_same_value_le (depth more : nat) (node : ast.expr)
    (env : gmap string value) (v : value) :
  depth <= more ->
  _eval depth node env = Return v ->
  _eval more node env = Return v.
Proof.
  intros Hle Hv. induction Hle as [| m _ IH]; [exact Hv |].
  apply more_depth_same_value, IH.
Qed.


End Depth.




(* ===================================================================== *)
(** * More on the evaluator *)
(* ===================================================================== *)

Section Evaluator.
Context `{Host}.

Import SafeEvaluator.

Lemma height_positive (node : ast.expr) : 1 <= walk.height node.
Proof. destruct node; simpl; lia. Qed.

Lemma height_of_argument (args : list ast.expr) (a : ast.expr) :
  List.In a args ->
  walk.height a <= fold_right (fun a m => Nat.max (walk.height a) m) 0 args.
Proof.
  induction args as [| x args IH]; simpl; [intros [] |].
  intros [-> | Hin]; [lia |]. specialize (IH Hin). lia.
Qed.

Lemma comprehension_agree {A B : Type} (f g : A -> outcome B) (l : list A) :
  (forall a, List.In a l -> f a = g a) ->
  comprehension f l = comprehension g l.
Proof.
  induction l as [| x l IH]; simpl; intros Hfg; [reflexivity |].
  rewrite (Hfg x (or_introl eq_refl)), IH; [reflexivity |].
  intros a Ha. apply Hfg. right. exact Ha.
Qed.

(** One more activation than the nesting needs changes nothing. *)
Lemma spare_depth_step (depth : nat) :
  forall (node : ast.expr) (env : gmap string value),
    walk.height node <= depth ->
    _eval (S depth) node env = _eval depth node env.
Proof.
  induction depth as [| d IH]; intros node env Hh.
  - pose proof (height_positive node). lia.
  - destruct node as [ | | l o r | o x | | | | | | | | | | | | | func args keywords | | |
                       | | | | | | | | v ];
      try reflexivity; simpl in Hh.
    + rewrite !_eval_BinOp. destruct (ops (ast.OfOperator o)); [| reflexivity].
      rewrite (IH l env ltac:(lia)), (IH r env ltac:(lia)). reflexivity.
    + rewrite !_eval_UnaryOp. destruct (ops (ast.OfUnaryop o)); [| reflexivity].
      rewrite (IH x env ltac:(lia)). reflexivity.
    + destruct func as [ | | | | | | | | | | | | | | | | | | | | | | | id | | | | ];
        try reflexivity.
      rewrite !_eval_Call. destruct (env !! id); [| reflexivity].
      rewrite (comprehension_agree (fun a => _eval (S d) a env) (fun a => _eval d a env) args);
        [reflexivity |].
      intros a Ha. apply IH.
      pose proof (height_of_argument args a Ha). lia.
    + rewrite !_eval_Expr. apply IH. lia.
Qed.

Lemma spare_depth (depth : nat) (node : ast.expr) (env : gmap string value) :
  walk.height node <= depth ->
  _eval depth node env = _eval (walk.height node) node env.
Proof.
  intros Hh. induction Hh as [| d Hd IH]; [reflexivity |].
  rewrite spare_depth_step; assumption.
Qed.


(** A node that does not pass the test of [_eval] makes the evaluation of
    any expression in which it is reached fail. *)
Lemma not_accepted_raises (env : gmap string value) (bad : ast.expr) (depth : nat) :
  whitelist.accepted env bad = false ->
  raised (_eval depth bad env) = true.
Proof.
  intros Ha. destruct depth as [| d]; [reflexivity |].
  destruct bad as [ | | l o r | o x | | | | | | | | | | | | | func args keywords | | | c
                    | | | | id | | | | v ];
    try reflexivity; unfold whitelist.accepted in Ha.
  - rewrite _eval_BinOp. destruct (ops (ast.OfOperator o)); [discriminate | reflexivity].
  - rewrite _eval_UnaryOp. destruct (ops (ast.OfUnaryop o)); [discriminate | reflexivity].
  - destruct func as [ | | | | | | | | | | | | | | | | | | | | | | | id | | | | ];
      try reflexivity.
    rewrite _eval_Call. destruct (env !! id); [| reflexivity].
    destruct args; [reflexivity | discriminate].
  - destruct c; try discriminate; reflexivity.
  - simpl. destruct (env !! id); [discriminate | reflexivity].
  - discriminate.
Qed.

Lemma reached_failure_raises (env : gmap string value) (bad node : ast.expr) :
  walk.reached bad node ->
  (forall depth, raised (_eval depth bad env) = true) ->
  forall depth, raised (_eval depth node env) = true.
Proof.
  intros Hreach Hbad.
  induction Hreach as [| c t Hin Hreach IH]; intros depth; [apply Hbad |].
  destruct depth as [| d]; [reflexivity |].
  destruct t as [ | | l o r | o x | | | | | | | | | | | | | func args keywords | | |
                  | | | | | | | | v ];
    simpl in Hin; try contradiction.
  - rewrite _eval_BinOp. destruct (ops (ast.OfOperator o)); [| reflexivity].
    destruct Hin as [<- | [<- | []]].
    + pose proof (IH d) as Hc.
      destruct (_eval d l env); [discriminate | reflexivity].
    + destruct (_eval d l env); [| reflexivity]. cbn [py.bind].
      pose proof (IH d) as Hc.
      destruct (_eval d r env); [discriminate | reflexivity].
  - rewrite _eval_UnaryOp. destruct (ops (ast.OfUnaryop o)); [| reflexivity].
    destruct Hin as [<- | []].
    pose proof (IH d) as Hc.
    destruct (_eval d x env); [discriminate | reflexivity].
  - destruct func as [ | | | | | | | | | | | | | | | | | | | | | | | id | | | | ];
      try reflexivity.
    rewrite _eval_Call. destruct (env !! id); [| reflexivity].
    pose proof (comprehension_raised (fun a => _eval d a env) args c Hin (IH d)) as Hc.
    destruct (comprehension (fun a => _eval d a env) args); [discriminate | reflexivity].
  - destruct Hin as [<- | []]. rewrite _eval_Expr. apply IH.
Qed.

(** X2. When [eval] returns a value, every node the walk reaches, through
    operands and positional arguments, passes the test of [_eval]: it is
    a numeric or boolean constant, an operator of [ops], a name of the
    environment, a call with at least one argument of a name of the
    environment, or an expression statement. Nothing else is ever part
    of a successful evaluation. *)
Theorem evaluated_tree_is_accepted (is_degrees : bool) (limit : nat) (s : string)
    (tree : ast.Expression) (v : value) (node : ast.expr) :
  ast_parse s = Return tree ->
  eval is_degrees limit s = Return v ->
  walk.reached node (ast.body tree) ->
  whitelist.accepted (_build_env is_degrees) node = true.
Proof.
  intros Hp Hv Hreach.
  destruct (whitelist.accepted (_build_env is_degrees) node) eqn:Ha; [reflexivity |].
  pose proof (reached_failure_raises (_build_env is_degrees) node (ast.body tree) Hreach
                (fun d => not_accepted_raises _ node d Ha) limit) as Hr.
  unfold eval in Hv. rewrite Hp in Hv. cbn [py.bind] in Hv.
  destruct (_eval limit (ast.body tree) (_build_env is_degrees)) as [w | e];
    [discriminate |].
  destruct (exn_class e); discriminate.
Qed.

(** Integer expressions, by induction on the depth. *)
Lemma int_value_evaluated (depth : nat) :
  forall (node : ast.expr) (env : gmap string value) (n : Z),
    reference.int_value node = Some n ->
    walk.height node <= depth ->
    _eval depth node env = Return (VInt n).
Proof.
  induction depth as [| d IH]; intros node env n Hn Hh.
  - pose proof (height_positive node). lia.
  - destruct node as [ | | l o r | o x | | | | | | | | | | | | | func args keywords | | | c
                       | | | | | | | | v ];
      try discriminate; simpl in Hh.
    + (* BinOp *)
      simpl in Hn.
      destruct (reference.int_value l) as [a |] eqn:Hl; [| discriminate].
      destruct (reference.int_value r) as [b |] eqn:Hr; [| discriminate].
      rewrite _eval_BinOp.
      rewrite (IH l env a Hl ltac:(lia)), (IH r env b Hr ltac:(lia)).
      destruct o; try discriminate; simpl in Hn |- *.
      * injection Hn as <-. reflexivity.
      * injection Hn as <-. reflexivity.
      * injection Hn as <-. reflexivity.
      * destruct (b =? 0)%Z eqn:Hb; [discriminate |]. injection Hn as <-.
        unfold operator_.call, operator_.binary, operator_.long_arith. cbn.
        rewrite Hb. reflexivity.
      * destruct (0 <=? b)%Z eqn:Hb; [| discriminate]. injection Hn as <-.
        unfold operator_.call, operator_.binary, operator_.long_arith. cbn.
        rewrite Hb. reflexivity.
      * destruct (b =? 0)%Z eqn:Hb; [discriminate |]. injection Hn as <-.
        unfold operator_.call, operator_.binary, operator_.long_arith. cbn.
        rewrite Hb. reflexivity.
    + (* UnaryOp *)
      rewrite _eval_UnaryOp. destruct o; try discriminate; simpl in Hn.
      * rewrite (IH x env n Hn ltac:(lia)). reflexivity.
      * destruct (reference.int_value x) as [a |] eqn:Hx; [| discriminate].
        injection Hn as <-.
        rewrite (IH x env a Hx ltac:(lia)). reflexivity.
    + (* Constant *)
      destruct c; try discriminate. injection Hn as <-. reflexivity.
Qed.

(** X3. An expression made of integer literals, signs and [+], [-], [*],
    [//], [%], [**], without zero divisor and without negative exponent,
    is evaluated to the integer it denotes in exact arithmetic, of any
    size, the quotient rounded down and the remainder of the sign of the
    divisor, as soon as the depth covers its nesting. *)
Theorem integer_expression_evaluated (is_degrees : bool) (limit : nat) (s : string)
    (tree : ast.Expression) (n : Z) :
  ast_parse s = Return tree ->
  reference.int_value (ast.body tree) = Some n ->
  walk.height (ast.body tree) <= limit ->
  eval is_degrees limit s = Return (VInt n).
Proof.
  intros Hp Hn Hh.
  apply (eval_return _ _ _ _ _ Hp), int_value_evaluated; assumption.
Qed.

End Evaluator.


Lemma evaluated_tree_is_accepted_witness :
  sample.parse "2*e" =
    Return {| ast.body := ast.BinOp (sample.num 2) ast.Mult (ast.Name "e") |}
  /\ @SafeEvaluator.eval sample.host true 2 "2*e" = Return (VFloat 0x1.5bf0a8b145769p+2)
  /\ walk.reached (ast.Name "e") (ast.BinOp (sample.num 2) ast.Mult (ast.Name "e"))
  /\ whitelist.accepted (SafeEvaluator._build_env true) (ast.Name "e") = true.
Proof.
  assert (H1 : @ast_parse sample.host "2*e" =
               Return {| ast.body := ast.BinOp (sample.num 2) ast.Mult (ast.Name "e") |})
    by reflexivity.
  assert (H2 : @SafeEvaluator.eval sample.host true 2 "2*e" =
               Return (VFloat 0x1.5bf0a8b145769p+2))
    by (vm_compute; reflexivity).
  assert (H3 : walk.reached (ast.Name "e")
                 (ast.body {| ast.body :=
                    ast.BinOp (sample.num 2) ast.Mult (ast.Name "e") |})).
  { eapply walk.reached_below; [| apply walk.reached_here].
    simpl. right. left. reflexivity. }
  split; [exact H1 | split; [exact H2 | split; [exact H3 |]]].
  exact (@evaluated_tree_is_accepted sample.host true 2 "2*e" _ _ _ H1 H2 H3).
Defined.

Lemma integer_expression_evaluated_witness :
  sample_more.parse "(2 + 3) * -4 // 3" =
    Return {| ast.body :=
                ast.BinOp
                  (ast.BinOp (ast.BinOp (sample.num 2) ast.Add (sample.num 3)) ast.Mult
                     (ast.UnaryOp ast.USub (sample.num 4)))
                  ast.FloorDiv (sample.num 3) |}
  /\ reference.int_value
       (ast.BinOp
          (ast.BinOp (ast.BinOp (sample.num 2) ast.Add (sample.num 3)) ast.Mult
             (ast.UnaryOp ast.USub (sample.num 4)))
          ast.FloorDiv (sample.num 3)) = Some (-7)%Z
  /\ walk.height
       (ast.BinOp
          (ast.BinOp (ast.BinOp (sample.num 2) ast.Add (sample.num 3)) ast.Mult
             (ast.UnaryOp ast.USub (sample.num 4)))
          ast.FloorDiv (sample.num 3)) <= 4
  /\ @SafeEvaluator.eval sample_more.host true 4 "(2 + 3) * -4 // 3" = Return (VInt (-7)).
Proof.
  assert (H1 : @ast_parse sample_more.host "(2 + 3) * -4 // 3" =
               Return {| ast.body :=
                 ast.BinOp
                   (ast.BinOp (ast.BinOp (sample.num 2) ast.Add (sample.num 3)) ast.Mult
                      (ast.UnaryOp ast.USub (sample.num 4)))
                   ast.FloorDiv (sample.num 3) |})
    by reflexivity.
  assert (H2 : reference.int_value
                 (ast.body {| ast.body :=
                   ast.BinOp
                     (ast.BinOp (ast.BinOp (sample.num 2) ast.Add (sample.num 3)) ast.Mult
                        (ast.UnaryOp ast.USub (sample.num 4)))
                     ast.FloorDiv (sample.num 3) |}) = Some (-7)%Z)
    by reflexivity.
  assert (H3 : walk.height
                 (ast.body {| ast.body :=
                   ast.BinOp
                     (ast.BinOp (ast.BinOp (sample.num 2) ast.Add (sample.num 3)) ast.Mult
                        (ast.UnaryOp ast.USub (sample.num 4)))
                     ast.FloorDiv (sample.num 3) |}) <= 4)
    by (simpl; lia).
  split; [exact H1 | split; [exact H2 | split; [exact H3 |]]].
  exact (@integer_expression_evaluated sample_more.host true 4 _ _ _ H1 H2 H3).
Defined.

(* ===================================================================== *)
(** * The display of numbers *)
(* ===================================================================== *)

Section Display.
Context `{Desktop}.

Lemma digits2_pos_bound (m : positive) :
  (Z.pos m < 2 ^ Z.pos (digits2_pos m))%Z.
Proof.
  induction m as [p IH | p IH |]; simpl digits2_pos.
  - rewrite Pos2Z.inj_succ, Z.pow_succ_r by lia. lia.
  - rewrite Pos2Z.inj_succ, Z.pow_succ_r by lia. lia.
  - reflexivity.
Qed.

(** The mantissa and the exponent of a finite float. *)
Lemma finite_float_bounds (x : float) (s : bool) (m : positive) (e : Z) :
  Prim2SF x = S754_finite s m e ->
  (Z.pos m < 2 ^ 53)%Z /\ (e <= 971)%Z.
Proof.
  intros Hx. pose proof (Prim2SF_valid x) as Hv. rewrite Hx in Hv.
  unfold valid_binary, bounded, canonical_mantissa, fexp in Hv.
  apply andb_true_iff in Hv. destruct Hv as [Hc He].
  apply Z.eqb_eq in Hc. apply Z.leb_le in He.
  change (emax - prec)%Z with 971%Z in He. change prec with 53%Z in Hc.
  split; [| exact He].
  pose proof (digits2_pos_bound m) as Hm.
  assert (Hd : (Z.pos (digits2_pos m) <= 53)%Z) by lia.
  eapply Z.lt_le_trans; [exact Hm |].
  apply Z.pow_le_mono_r; lia.
Qed.

(** The integer part of a float is below [2 ^ 1024]. *)
Lemma float_to_long_bound (x : float) (n : Z) :
  display.float_to_long x = Return n ->
  (Z.abs n < 2 ^ 1024)%Z.
Proof.
  unfold display.float_to_long.
  destruct (Prim2SF x) as [s | s | | s m e] eqn:Hx; try discriminate.
  - intros Hn. injection Hn as <-. reflexivity.
  - intros Hn. injection Hn as <-.
    destruct (finite_float_bounds x s m e Hx) as [Hm He].
    assert (Ha : (0 <= (if (0 <=? e)%Z then Z.pos m * 2 ^ e else Z.pos m / 2 ^ (- e))
                  < 2 ^ 1024)%Z).
    { destruct (0 <=? e)%Z eqn:Hle.
      - apply Z.leb_le in Hle.
        assert (Hp : (0 < 2 ^ e <= 2 ^ 971)%Z).
        { split; [apply Z.pow_pos_nonneg; lia | apply Z.pow_le_mono_r; lia]. }
        change (2 ^ 1024)%Z with (2 ^ 53 * 2 ^ 971)%Z. nia.
      - apply Z.leb_gt in Hle.
        assert (Hp : (0 < 2 ^ (- e))%Z) by (apply Z.pow_pos_nonneg; lia).
        split; [apply Z.div_pos; lia |].
        eapply Z.le_lt_trans; [apply Z.div_le_upper_bound; [lia |] |].
        + instantiate (1 := Z.pos m). nia.
        + eapply Z.lt_trans; [exact Hm | reflexivity]. }
    destruct s; lia.
Qed.

Lemma str_long_small (n : Z) :
  (Z.abs n < 10 ^ 640)%Z ->
  display.str_long n = Return (str_.decimal n).
Proof.
  intros Hn. unfold display.str_long.
  destruct (0 <? int_max_str_digits)%Z; [| reflexivity]. cbn [andb].
  destruct (10 ^ Z.max int_max_str_digits 640 <=? Z.abs n)%Z eqn:Hc; [| reflexivity].
  apply Z.leb_le in Hc.
  assert (Hp : (10 ^ 640 <= 10 ^ Z.max int_max_str_digits 640)%Z)
    by (apply Z.pow_le_mono_r; lia).
  lia.
Qed.

Lemma is_integer_to_long (x : float) :
  display.is_integer x = true ->
  exists n, display.float_to_long x = Return n.
Proof.
  unfold display.is_integer, display.float_to_long.
  destruct (Prim2SF x); try discriminate; eauto.
Qed.

(** [format_number] never raises on a float. *)
Lemma format_number_float_returns (x : float) :
  exists shown, display.format_number (VFloat x) = Return shown.
Proof.
  unfold display.format_number. cbn [orb].
  destruct (display.is_integer x); [| eexists; reflexivity].
  cbn [display.int_].
  destruct (display.float_to_long x) as [n |]; [| eexists; reflexivity].
  cbn [py.bind].
  destruct (display.str_long n); eexists; reflexivity.
Qed.

(** X4. A result that is an integer is displayed by its decimal digits,
    as long as it has no more than 640 of them; a boolean as [1] or [0];
    a float without fractional part as the decimal digits of its exact
    integer value, whatever its size, so that [12.0] reads [12]. *)
Theorem format_number_of_integers :
  (forall n : Z, (Z.abs n < 10 ^ 640)%Z ->
     display.format_number (VInt n) = Return (str_.decimal n))
  /\ (forall b : bool,
        display.format_number (VBool b) = Return (if b then "1" else "0")%string)
  /\ (forall x : float, display.is_integer x = true ->
        exists n : Z,
          display.float_to_long x = Return n
          /\ display.format_number (VFloat x) = Return (str_.decimal n)).
Proof.
  split; [| split].
  - intros n Hn. unfold display.format_number. cbn.
    rewrite (str_long_small n Hn). reflexivity.
  - intros b. unfold display.format_number. cbn.
    rewrite (str_long_small (Z.b2z b)) by (destruct b; reflexivity).
    destruct b; reflexivity.
  - intros x Hx. destruct (is_integer_to_long x Hx) as [n Hn].
    exists n. split; [exact Hn |].
    unfold display.format_number. rewrite Hx. cbn [orb display.int_].
    rewrite Hn. cbn [py.bind].
    rewrite (str_long_small n); [reflexivity |].
    pose proof (float_to_long_bound x n Hn) as Hb.
    eapply Z.lt_trans; [exact Hb | reflexivity].
Qed.

End Display.

Lemma format_number_of_integers_witness :
  ((Z.abs 1024 < 10 ^ 640)%Z
   /\ @display.format_number sample_desktop.desktop (VInt 1024) = Return "1024"%string)
  /\ display.is_integer 12 = true
  /\ @display.format_number sample_desktop.desktop (VFloat 12) = Return "12"%string.
Proof.
  assert (H0 : (Z.abs 1024 < 10 ^ 640)%Z) by (vm_compute; reflexivity).
  assert (H1 : display.is_integer 12 = true) by (vm_compute; reflexivity).
  split; [split; [exact H0 |] | split; [exact H1 |]].
  - exact (proj1 (@format_number_of_integers sample_desktop.desktop) 1024%Z H0).
  - destruct (proj2 (proj2 (@format_number_of_integers sample_desktop.desktop)) 12%float H1)
      as [n [Hn Hf]].
    assert (Hn' : display.float_to_long 12 = Return 12%Z) by (vm_compute; reflexivity).
    rewrite Hn' in Hn. injection Hn as <-. exact Hf.
Defined.

(* ===================================================================== *)
(** * The equals key *)
(* ===================================================================== *)

Section Equals.
Context `{Host} `{Desktop}.
Variable limit : nat.

Import CalculatorApp.

(** The only exception [format_number] can raise is the [ValueError] of
    an integer with too many digits. *)
Lemma format_number_raises (x : value) (e : exn) :
  display.format_number x = Raise e -> e = Exc ValueError None None.
Proof.
  unfold display.format_number, display.try_except.
  destruct x as [n | b | y | re im | f]; cbn.
  - unfold display.str_long.
    destruct (_ && _); cbn; [intros E; injection E as <-; reflexivity | discriminate].
  - unfold display.str_long.
    destruct (_ && _); cbn; discriminate.
  - destruct (display.is_integer y); [| discriminate].
    destruct (display.float_to_long y) as [n |]; cbn; [| discriminate].
    destruct (display.str_long n); discriminate.
  - discriminate.
  - discriminate.
Qed.

(** X5. [equals] changes nothing when it does not succeed. On a blank
    entry it does nothing at all. When the evaluation fails, the state is
    what it was but for one more error dialog: "Math error", "Division by
    zero" for a [ZeroDivisionError], and "Error", "Invalid expression"
    for every other failure of the evaluator. When the value cannot be
    displayed, the dialog is "Error" with the message of the interpreter,
    and again nothing else has changed: neither the result line, nor the
    history, nor the entry. *)
Theorem equals_changes_nothing_on_failure (st : app) :
  (str_.strip (entry st) = EmptyString -> equals limit st = (Done tt, st))
  /\ (forall e : exn,
        str_.strip (entry st) <> EmptyString ->
        SafeEvaluator.eval (degree_mode st) limit (str_.strip (entry st)) = Raise e ->
        equals limit st =
          (Done tt,
           match exn_class e with
           | ZeroDivisionError =>
               showerror "Math error" (Some "Division by zero"%string) st
           | _ => showerror "Error" (Some "Invalid expression"%string) st
           end))
  /\ (forall (v : value) (e : exn),
        str_.strip (entry st) <> EmptyString ->
        SafeEvaluator.eval (degree_mode st) limit (str_.strip (entry st)) = Return v ->
        display.format_number v = Raise e ->
        equals limit st = (Done tt, showerror "Error" None st)).
Proof.
  split; [| split].
  - intros Hb. unfold equals, then_, lift, ret. cbn. rewrite Hb. reflexivity.
  - intros e Hne He. apply String.eqb_neq in Hne.
    unfold equals, then_, lift, ret, try_, evaluate. cbn. rewrite Hne, He. cbn.
    destruct (eval_raises_two_kinds _ _ _ _ He) as [Hz | [e0 [-> Hc]]].
    + destruct e as [c m ca]. cbn in Hz. subst c. reflexivity.
    + reflexivity.
  - intros v e Hne Hv Hf. apply String.eqb_neq in Hne.
    rewrite (format_number_raises v e Hf) in Hf.
    unfold equals, then_, lift, ret, try_, evaluate. cbn. rewrite Hne, Hv. cbn.
    rewrite Hf. reflexivity.
Qed.

(** The state a successful [equals] leaves, update after update. *)
Lemma equals_success_state (st : app) (v : value) (shown : string) :
  str_.strip (entry st) <> EmptyString ->
  SafeEvaluator.eval (degree_mode st) limit (str_.strip (entry st)) = Return v ->
  display.format_number v = Return shown ->
  equals limit st =
    (Done tt,
     let line := String.append (str_.strip (entry st)) (String.append " = " shown) in
     set_history_index None
       (set_entry shown
          (set_hist_list (hist_list st ++ [line])
             (set_history (history st ++ [line])
                (set_result_var shown st))))).
Proof.
  intros Hne Hv Hf. apply String.eqb_neq in Hne.
  unfold equals, then_, lift, ret, try_, evaluate, _add_history, update. cbn.
  rewrite Hne, Hv. cbn. rewrite Hf. cbn.
  unfold set_history_index, set_entry. cbn.
  assert (Hs : String.append shown EmptyString = shown).
  { clear. induction shown as [| c s IH]; [reflexivity |].
    change (String c (String.append s EmptyString) = String c s). rewrite IH. reflexivity. }
  rewrite Hs. reflexivity.
Qed.

(** X6. When [equals] succeeds, the result line and the entry both hold
    the displayed value, the line "expression = value" is appended to the
    history and to the list box, the navigation index is reset, and no
    dialog is shown. *)
Theorem equals_on_success (st : app) (v : value) (shown : string) :
  str_.strip (entry st) <> EmptyString ->
  SafeEvaluator.eval (degree_mode st) limit (str_.strip (entry st)) = Return v ->
  display.format_number v = Return shown ->
  equals limit st =
    (Done tt,
     {| is_dark := is_dark st;
        degree_mode := degree_mode st;
        memory_value := memory_value st;
        history :=
          history st ++ [String.append (str_.strip (entry st)) (String.append " = " shown)];
        history_index := None;
        entry := shown;
        result_var := shown;
        hist_list :=
          hist_list st ++ [String.append (str_.strip (entry st)) (String.append " = " shown)];
        dialogs := dialogs st |}).
Proof.
  intros Hne Hv Hf. rewrite (equals_success_state st v shown Hne Hv Hf). reflexivity.
Qed.

End Equals.

(* ===================================================================== *)
(** * The states of the application *)
(* ===================================================================== *)

Section States.
Context `{Host} `{Desktop}.
Variable limit : nat.

Import CalculatorApp.

Lemma getitem_in_range {A : Type} (l : list A) (i : Z) :
  (0 <= i < Z.of_nat (length l))%Z ->
  exists a, getitem l i = Done a /\ nth_error l (Z.to_nat i) = Some a.
Proof.
  intros Hi. unfold getitem.
  destruct (i <? 0)%Z eqn:Hneg; [apply Z.ltb_lt in Hneg; lia |].
  rewrite Hneg.
  destruct (nth_error l (Z.to_nat i)) as [a |] eqn:Hn; [eauto |].
  apply nth_error_None in Hn. lia.
Qed.

(** What [_load_history_index] leaves of the history. *)
Lemma load_keeps_history (st : app) :
  history (snd (_load_history_index st)) = history st
  /\ hist_list (snd (_load_history_index st)) = hist_list st
  /\ history_index (snd (_load_history_index st)) = history_index st.
Proof.
  unfold _load_history_index, then_, lift, update, ret. cbn.
  destruct (history_index st) as [i |] eqn:Hi; cbn; [| rewrite Hi; auto].
  destruct (getitem (history st) i); cbn; rewrite ?Hi; auto.
Qed.

Lemma load_returns (st : app) :
  consistent st -> fst (_load_history_index st) = Done tt.
Proof.
  intros [_ Hi]. unfold _load_history_index, then_, lift, update, ret. cbn.
  destruct (history_index st) as [i |]; cbn; [| reflexivity].
  destruct (getitem_in_range (history st) i Hi) as [a [-> _]]. reflexivity.
Qed.

Lemma format_number_of_memory (x : float) :
  exists shown, display.format_number (VFloat x) = Return shown.
Proof. apply format_number_float_returns. Qed.

Lemma current_value_returns (st : app) :
  exists x, _current_value limit st = (Done x, st).
Proof.
  unfold _current_value, then_, lift, ret, try_, evaluate. cbn.
  destruct (String.eqb (str_.strip (entry st)) EmptyString); cbn.
  - destruct (float_of_str (result_var st)); cbn; eauto.
  - destruct (SafeEvaluator.eval (degree_mode st) limit (str_.strip (entry st)))
      as [v |]; cbn; [| eauto].
    destruct (number.as_double v); cbn; eauto.
Qed.

(** One callback, from a consistent state. *)
Lemma handle_consistent (ev : event) (st : app) :
  consistent st ->
  consistent (snd (handle limit ev st)) /\ fst (handle limit ev st) = Done tt.
Proof.
  intros Hc. pose proof Hc as [Hl Hi].
  destruct ev; cbn [handle].
  - (* Press *) split; [exact Hc | reflexivity].
  - (* clear *) split; [split; [exact Hl | exact I] | reflexivity].
  - (* backspace *)
    unfold backspace, then_, lift, ret, update. cbn.
    destruct (String.eqb (entry st) EmptyString); cbn; split; solve [exact Hc | reflexivity].
  - (* equals *)
    unfold equals, then_, lift, ret, try_, evaluate, _add_history, update. cbn.
    destruct (String.eqb (str_.strip (entry st)) EmptyString); cbn;
      [split; [exact Hc | reflexivity] |].
    destruct (SafeEvaluator.eval (degree_mode st) limit (str_.strip (entry st)))
      as [v | e]; cbn.
    + destruct (display.format_number v) as [shown | e]; cbn.
      * split; [| reflexivity]. split; [cbn; rewrite Hl; reflexivity | exact I].
      * destruct e as [[] ? ?]; cbn; (split; [exact Hc | reflexivity]).
    + destruct e as [[] ? ?]; cbn; (split; [exact Hc | reflexivity]).
  - (* mem_clear *) split; [exact Hc | reflexivity].
  - (* mem_recall *)
    unfold mem_recall, then_, lift. cbn.
    destruct (format_number_of_memory (memory_value st)) as [shown ->]. cbn.
    split; [exact Hc | reflexivity].
  - (* mem_add *)
    unfold mem_add, then_, lift, update. cbn [of_outcome].
    destruct (current_value_returns st) as [x ->]. cbn.
    destruct (format_number_of_memory (memory_value st + x)) as [shown ->]. cbn.
    split; [exact Hc | reflexivity].
  - (* mem_sub *)
    unfold mem_sub, then_, lift, update. cbn [of_outcome].
    destruct (current_value_returns st) as [x ->]. cbn.
    destruct (format_number_of_memory (memory_value st - x)) as [shown ->]. cbn.
    split; [exact Hc | reflexivity].
  - (* toggle_theme *) split; [exact Hc | reflexivity].
  - (* toggle_degree_mode *) split; [exact Hc | reflexivity].
  - (* clear_history *) split; [split; [reflexivity | exact I] | reflexivity].
  - (* history_prev *)
    clear Hl Hi.
    unfold history_prev. unfold then_ at 1, lift at 1. cbn.
    destruct (history st) as [| line lines] eqn:Hh; [split; [exact Hc | reflexivity] |].
    pose proof Hc as [Hl Hi].
    unfold then_ at 1, lift at 1. cbn.
    assert (Hlen : (0 < Z.of_nat (length (history st)))%Z) by (rewrite Hh; cbn; lia).
    set (i' := match history_index st with
               | None => (Z.of_nat (length (history st)) - 1)%Z
               | Some i => Z.max 0 (i - 1)
               end).
    assert (Hc' : consistent (set_history_index (Some i') st)).
    { split; [exact Hl |]. cbn. subst i'.
      destruct (history_index st) as [i |]; lia. }
    assert (Hrun : forall k : method unit,
               then_ (match history_index st with
                      | None => update (fun st0 => set_history_index
                                   (Some (Z.of_nat (length (history st0)) - 1)%Z) st0)
                      | Some i => update (set_history_index (Some (Z.max 0 (i - 1))))
                      end) (fun _ => k) st
               = k (set_history_index (Some i') st)).
    { intros k. subst i'. destruct (history_index st); reflexivity. }
    rewrite Hrun.
    destruct (load_keeps_history (set_history_index (Some i') st)) as (E1 & E2 & E3).
    split; [| apply load_returns; exact Hc'].
    destruct Hc' as [Hl' Hi']. split.
    + rewrite E1, E2. exact Hl'.
    + rewrite E3, E1. exact Hi'.
  - (* history_next *)
    clear Hl Hi.
    unfold history_next. unfold then_ at 1, lift at 1. cbn.
    destruct (history st) as [| line lines] eqn:Hh; [split; [exact Hc | reflexivity] |].
    unfold then_ at 1, lift at 1. cbn.
    destruct (history_index st) as [i |] eqn:Hidx; [| split; [exact Hc | reflexivity]].
    pose proof Hc as [Hl Hi]. rewrite Hidx in Hi.
    assert (Hlen : (0 < Z.of_nat (length (history st)))%Z) by (rewrite Hh; cbn; lia).
    set (i' := Z.min (Z.of_nat (length (history st)) - 1) (i + 1)).
    assert (Hc' : consistent (set_history_index (Some i') st)).
    { split; [exact Hl |]. cbn. subst i'. lia. }
    change (then_ (update (fun st0 => set_history_index
                     (Some (Z.min (Z.of_nat (length (history st0)) - 1) (i + 1))) st0))
              (fun _ => _load_history_index) st)
      with (_load_history_index (set_history_index (Some i') st)).
    destruct (load_keeps_history (set_history_index (Some i') st)) as (E1 & E2 & E3).
    split; [| apply load_returns; exact Hc'].
    destruct Hc' as [Hl' Hi']. split.
    + rewrite E1, E2. exact Hl'.
    + rewrite E3, E1. exact Hi'.
  - (* on_history_select *)
    unfold on_history_select. destruct selection; split; solve [exact Hc | reflexivity].
  - (* on_key *)
    unfold on_key. destruct (_ && _); split; solve [exact Hc | reflexivity].
Qed.

(** X7. In every state the application can reach, the list box shows
    exactly the lines of the history and the navigation index, when
    there is one, is the index of a line; and from such a state no
    callback raises: navigation never indexes outside the history, the
    memory keys never fail, and [equals] handles every failure. *)
Theorem reachable_states_are_consistent (st : app) :
  reachable limit st ->
  consistent st /\ forall ev : event, fst (handle limit ev st) = Done tt.
Proof.
  intros Hr.
  assert (Hc : consistent st).
  { induction Hr as [| st ev _ IH]; [split; [reflexivity | exact I] |].
    apply handle_consistent, IH. }
  split; [exact Hc |].
  intros ev. apply handle_consistent, Hc.
Qed.

(** X13. What a callback leaves alone. The angle mode changes with its
    own button only, the memory with the keys MC, M+ and M- only, and a
    dialog is shown by [equals] only. The history and the list box are
    changed by [equals] and [clear_history] only, and but for
    [clear_history] no line of the history is ever removed or altered:
    lines are added at the end. *)
Theorem callbacks_keep_to_their_own (ev : event) (st : app) :
  (degree_mode (snd (handle limit ev st)) = degree_mode st \/ ev = PressMode)
  /\ (memory_value (snd (handle limit ev st)) = memory_value st
      \/ ev = PressMemoryClear \/ ev = PressMemoryAdd \/ ev = PressMemorySub)
  /\ (dialogs (snd (handle limit ev st)) = dialogs st \/ ev = PressEquals)
  /\ (history (snd (handle limit ev st)) = history st
      /\ hist_list (snd (handle limit ev st)) = hist_list st
      \/ ev = PressEquals \/ ev = PressClearHistory)
  /\ ((exists lines, history (snd (handle limit ev st)) = history st ++ lines)
      \/ ev = PressClearHistory).
Proof.
  destruct ev; cbn [handle].
  - (* Press *) pick.
  - (* clear *) pick.
  - (* backspace *)
    unfold backspace, then_, lift, ret, update. cbn.
    destruct (String.eqb (entry st) EmptyString); cbn; pick.
  - (* equals *)
    unfold equals, then_, lift, ret, try_, evaluate, _add_history, update. cbn.
    destruct (String.eqb (str_.strip (entry st)) EmptyString); cbn; [pick |].
    destruct (SafeEvaluator.eval (degree_mode st) limit (str_.strip (entry st)))
      as [v | e]; cbn.
    + destruct (display.format_number v) as [shown | e]; cbn.
      * repeat split; try pick. left. eexists. reflexivity.
      * destruct e as [[] ? ?]; cbn; pick.
    + destruct e as [[] ? ?]; cbn; pick.
  - (* mem_clear *) pick.
  - (* mem_recall *)
    unfold mem_recall, then_, lift. cbn.
    destruct (format_number_of_memory (memory_value st)) as [shown ->]. cbn.
    pick.
  - (* mem_add *)
    unfold mem_add, then_, lift, update. cbn [of_outcome].
    destruct (current_value_returns st) as [x ->]. cbn.
    destruct (format_number_of_memory (memory_value st + x)) as [shown ->]. cbn.
    pick.
  - (* mem_sub *)
    unfold mem_sub, then_, lift, update. cbn [of_outcome].
    destruct (current_value_returns st) as [x ->]. cbn.
    destruct (format_number_of_memory (memory_value st - x)) as [shown ->]. cbn.
    pick.
  - (* toggle_theme *) pick.
  - (* toggle_degree_mode *) pick.
  - (* clear_history *) pick.
  - (* history_prev *)
    unfold history_prev, _load_history_index, then_, lift, update, ret. cbn.
    destruct (history st) as [| line lines] eqn:Hh; cbn; [rewrite ?Hh; pick |].
    destruct (history_index st) as [i |]; cbn;
      match goal with |- context [getitem ?l ?j] => destruct (getitem l j) end;
      cbn; rewrite ?Hh; pick.
  - (* history_next *)
    unfold history_next, _load_history_index, then_, lift, update, ret. cbn.
    destruct (history st) as [| line lines] eqn:Hh; cbn; [rewrite ?Hh; pick |].
    destruct (history_index st) as [i |]; cbn; [| rewrite ?Hh; pick].
    match goal with |- context [getitem ?l ?j] => destruct (getitem l j) end;
      cbn; rewrite ?Hh; pick.
  - (* on_history_select *)
    unfold on_history_select. destruct selection; pick.
  - (* on_key *)
    unfold on_key. destruct (_ && _); pick.
Qed.

End States.

(* ===================================================================== *)
(** * Strings *)
(* ===================================================================== *)

Section Strings.

Lemma append_empty (s : string) : String.append s EmptyString = s.
Proof.
  induction s as [| c s IH]; [reflexivity |].
  change (String c (String.append s EmptyString) = String c s). rewrite IH. reflexivity.
Qed.

Lemma append_cons (c : Ascii.ascii) (s t : string) :
  String.append (String c s) t = String c (String.append s t).
Proof. reflexivity. Qed.

Lemma without_last_append (s : string) (c : Ascii.ascii) :
  str_.without_last (String.append s (String c EmptyString)) = s.
Proof.
  induction s as [| a s IH]; [reflexivity |].
  rewrite append_cons. cbn [str_.without_last].
  destruct (String.append s (String c EmptyString)) eqn:E.
  - destruct s; discriminate.
  - rewrite IH. reflexivity.
Qed.

Lemma rstrip_cons (c : Ascii.ascii) (s : string) :
  str_.rstrip (String c s) =
    match str_.rstrip s with
    | EmptyString => if str_.isspace c then EmptyString else String c EmptyString
    | t => String c t
    end.
Proof. reflexivity. Qed.

Lemma rstrip_trailing_blank (s : string) (c : Ascii.ascii) :
  str_.isspace c = true ->
  str_.rstrip (String.append s (String c EmptyString)) = str_.rstrip s.
Proof.
  intros Hc. induction s as [| a s IH].
  - change (str_.rstrip (String c EmptyString) = EmptyString).
    cbn [str_.rstrip]. rewrite Hc. reflexivity.
  - rewrite append_cons, !rstrip_cons, IH. reflexivity.
Qed.

Lemma rstrip_fixed_tail (c : Ascii.ascii) (s : string) :
  str_.rstrip (String c s) = String c s -> str_.rstrip s = s.
Proof.
  rewrite rstrip_cons. destruct (str_.rstrip s) as [| d u] eqn:E.
  - destruct (str_.isspace c); [discriminate |].
    intros E'. injection E' as <-. reflexivity.
  - intros E'. injection E' as <-. reflexivity.
Qed.

Lemma rstrip_idempotent (s : string) :
  str_.rstrip (str_.rstrip s) = str_.rstrip s.
Proof.
  induction s as [| c s IH]; [reflexivity |].
  rewrite rstrip_cons. destruct (str_.rstrip s) as [| d u] eqn:E.
  - destruct (str_.isspace c) eqn:Hc; [reflexivity |].
    rewrite rstrip_cons. cbn [str_.rstrip]. rewrite Hc. reflexivity.
  - rewrite rstrip_cons, IH. reflexivity.
Qed.

Lemma rstrip_lstrip (s : string) :
  str_.rstrip s = s -> str_.rstrip (str_.lstrip s) = str_.lstrip s.
Proof.
  induction s as [| c s IH]; [reflexivity |].
  intros Hs. cbn [str_.lstrip]. destruct (str_.isspace c); [| exact Hs].
  apply IH, (rstrip_fixed_tail c), Hs.
Qed.

Lemma lstrip_idempotent (s : string) :
  str_.lstrip (str_.lstrip s) = str_.lstrip s.
Proof.
  induction s as [| c s IH]; [reflexivity |].
  cbn [str_.lstrip]. destruct (str_.isspace c) eqn:Hc; [exact IH |].
  cbn [str_.lstrip]. rewrite Hc. reflexivity.
Qed.

Lemma strip_idempotent (s : string) : str_.strip (str_.strip s) = str_.strip s.
Proof.
  unfold str_.strip.
  rewrite (rstrip_lstrip (str_.rstrip s) (rstrip_idempotent s)).
  apply lstrip_idempotent.
Qed.

(** A stripped string followed by a blank strips to itself. *)
Lemma strip_of_stripped_and_blank (s : string) (c : Ascii.ascii) :
  str_.isspace c = true ->
  str_.strip (String.append (str_.strip s) (String c EmptyString)) = str_.strip s.
Proof.
  intros Hc. unfold str_.strip at 1.
  rewrite (rstrip_trailing_blank _ c Hc).
  apply strip_idempotent.
Qed.

Lemma before_append_without (sep : Ascii.ascii) (a b : string) :
  str_.before sep a = a ->
  str_.before sep (String.append a b) = String.append a (str_.before sep b).
Proof.
  induction a as [| c a IH]; [reflexivity |].
  rewrite !append_cons. cbn [str_.before].
  destruct (Ascii.eqb c sep); [discriminate |].
  intros E. injection E as E. rewrite (IH E). reflexivity.
Qed.

Lemma before_append_with (sep : Ascii.ascii) (a b : string) :
  str_.before sep a <> a ->
  str_.before sep (String.append a b) = str_.before sep a.
Proof.
  induction a as [| c a IH]; [intros E; exfalso; apply E; reflexivity |].
  rewrite append_cons. cbn [str_.before].
  destruct (Ascii.eqb c sep); [reflexivity |].
  intros E. rewrite IH; [reflexivity |].
  intros E'. apply E. rewrite E'. reflexivity.
Qed.

(** The expression read back from the line "expression = value". *)
Lemma expression_of_line (s shown : string) :
  let expr := str_.strip s in
  CalculatorApp.expression_of (String.append expr (String.append " = " shown)) =
    if String.eqb (str_.before str_.equals_sign expr) expr then expr
    else str_.strip (str_.before str_.equals_sign expr).
Proof.
  cbv zeta. unfold CalculatorApp.expression_of.
  destruct (String.eqb (str_.before str_.equals_sign (str_.strip s)) (str_.strip s)) eqn:E.
  - apply String.eqb_eq in E.
    rewrite (before_append_without _ _ _ E).
    change (str_.before str_.equals_sign (String.append " = " shown))
      with (String (Ascii.ascii_of_nat 32) EmptyString).
    apply strip_of_stripped_and_blank. reflexivity.
  - apply String.eqb_neq in E.
    rewrite (before_append_with _ _ _ E). reflexivity.
Qed.

End Strings.

(* ===================================================================== *)
(** * History and memory *)
(* ===================================================================== *)

Section History.
Context `{Host} `{Desktop}.
Variable limit : nat.

Import CalculatorApp.

Lemma nonempty_case {A B : Type} (l : list B) (x y : A) :
  l <> [] -> match l with [] => x | _ :: _ => y end = y.
Proof. destruct l; [intros E; exfalso; apply E; reflexivity | reflexivity]. Qed.

(** [_load_history_index] on the index of a line. *)
Lemma load_line (st : app) (i : Z) (line : string) :
  history_index st = Some i ->
  (0 <= i)%Z ->
  nth_error (history st) (Z.to_nat i) = Some line ->
  _load_history_index st =
    (Done tt, set_result_var EmptyString (set_entry (expression_of line) st)).
Proof.
  intros Hi Hpos Hn.
  unfold _load_history_index, then_, lift, update, ret. cbn. rewrite Hi. cbn.
  unfold getitem.
  destruct (i <? 0)%Z eqn:Hneg; [apply Z.ltb_lt in Hneg; lia |]. rewrite Hneg, Hn. cbn.
  unfold set_result_var, set_entry. cbn. rewrite append_empty. reflexivity.
Qed.

Lemma history_prev_moves (st : app) (i : Z) :
  consistent st ->
  history_index st = Some i ->
  exists line,
    nth_error (history st) (Z.to_nat (Z.max 0 (i - 1))) = Some line
    /\ history_prev st =
         (Done tt,
          set_result_var EmptyString (set_entry (expression_of line)
            (set_history_index (Some (Z.max 0 (i - 1))) st))).
Proof.
  intros Hc Hi. pose proof Hc as [_ Hr]. rewrite Hi in Hr.
  destruct (getitem_in_range (history st) (Z.max 0 (i - 1)) ltac:(lia)) as [line [_ Hn]].
  exists line. split; [exact Hn |].
  unfold history_prev. unfold then_ at 1, lift at 1. cbn.
  destruct (history st) as [| l0 ls] eqn:Hh; [cbn in Hr; lia |].
  unfold then_ at 1, lift at 1. cbn. rewrite Hi.
  unfold then_ at 1, update at 1.
  apply load_line with (i := Z.max 0 (i - 1)); [reflexivity | lia |].
  cbn. rewrite Hh. exact Hn.
Qed.

Lemma history_next_moves (st : app) (i : Z) :
  consistent st ->
  history_index st = Some i ->
  exists line,
    nth_error (history st)
      (Z.to_nat (Z.min (Z.of_nat (length (history st)) - 1) (i + 1))) = Some line
    /\ history_next st =
         (Done tt,
          set_result_var EmptyString (set_entry (expression_of line)
            (set_history_index
               (Some (Z.min (Z.of_nat (length (history st)) - 1) (i + 1))) st))).
Proof.
  intros Hc Hi. pose proof Hc as [_ Hr]. rewrite Hi in Hr.
  destruct (getitem_in_range (history st)
              (Z.min (Z.of_nat (length (history st)) - 1) (i + 1)) ltac:(lia))
    as [line [_ Hn]].
  exists line. split; [exact Hn |].
  assert (Hne : history st <> []) by (intros E; rewrite E in Hr; cbn in Hr; lia).
  unfold history_next. unfold then_ at 1, lift at 1. cbn [of_outcome].
  rewrite (nonempty_case (history st) _ _ Hne).
  unfold then_ at 1, lift at 1. cbn [of_outcome]. rewrite Hi.
  unfold then_ at 1, update at 1.
  apply load_line with (i := Z.min (Z.of_nat (length (history st)) - 1) (i + 1)).
  - reflexivity.
  - lia.
  - exact Hn.
Qed.

Lemma history_prev_enters (st : app) (line : string) :
  history_index st = None ->
  nth_error (history st) (Z.to_nat (Z.of_nat (length (history st)) - 1)) = Some line ->
  history_prev st =
    (Done tt,
     set_result_var EmptyString (set_entry (expression_of line)
       (set_history_index (Some (Z.of_nat (length (history st)) - 1)%Z) st))).
Proof.
  intros Hi Hn.
  assert (Hne : history st <> []).
  { intros E. rewrite E in Hn. discriminate. }
  unfold history_prev. unfold then_ at 1, lift at 1. cbn [of_outcome].
  rewrite (nonempty_case (history st) _ _ Hne).
  unfold then_ at 1, lift at 1. cbn [of_outcome]. rewrite Hi.
  unfold then_ at 1, update at 1.
  apply load_line with (i := (Z.of_nat (length (history st)) - 1)%Z).
  - reflexivity.
  - destruct (history st); [contradiction | cbn [length]; lia].
  - exact Hn.
Qed.

(** X8. Navigation in the history, from a consistent state whose index is
    on a line. The up key moves to the line above and the down key to the
    line below, and each shows in the entry the expression of the line it
    moves to. The up key on the first line and the down key on the last
    line stay where they are. Up followed by down comes back to the line
    one started from, unless that was the first line. *)
Theorem history_navigation (st : app) (i : Z) :
  consistent st ->
  history_index st = Some i ->
  (exists line,
      nth_error (history st) (Z.to_nat (Z.max 0 (i - 1))) = Some line
      /\ history_index (snd (history_prev st)) = Some (Z.max 0 (i - 1))
      /\ entry (snd (history_prev st)) = expression_of line)
  /\ (exists line,
        nth_error (history st)
          (Z.to_nat (Z.min (Z.of_nat (length (history st)) - 1) (i + 1))) = Some line
        /\ history_index (snd (history_next st)) =
             Some (Z.min (Z.of_nat (length (history st)) - 1) (i + 1))
        /\ entry (snd (history_next st)) = expression_of line)
  /\ (i = 0%Z -> history_index (snd (history_prev st)) = Some 0%Z)
  /\ (i = (Z.of_nat (length (history st)) - 1)%Z ->
      history_index (snd (history_next st)) = Some i)
  /\ ((0 < i)%Z ->
      exists line,
        nth_error (history st) (Z.to_nat i) = Some line
        /\ history_index (snd (history_next (snd (history_prev st)))) = Some i
        /\ entry (snd (history_next (snd (history_prev st)))) = expression_of line).
Proof.
  intros Hc Hi. pose proof Hc as [Hl Hr]. rewrite Hi in Hr.
  destruct (history_prev_moves st i Hc Hi) as [up [Hup Eup]].
  destruct (history_next_moves st i Hc Hi) as [down [Hdown Edown]].
  split; [| split; [| split; [| split]]].
  - exists up. rewrite Eup. auto.
  - exists down. rewrite Edown. auto.
  - intros ->. rewrite Eup. reflexivity.
  - intros Hlast. rewrite Edown. cbn. f_equal. lia.
  - intros Hpos.
    set (st1 := set_result_var EmptyString (set_entry (expression_of up)
                  (set_history_index (Some (Z.max 0 (i - 1))) st))).
    assert (Hc1 : consistent st1).
    { split; [exact Hl |]. cbn. lia. }
    destruct (history_next_moves st1 (Z.max 0 (i - 1)) Hc1 eq_refl) as [back [Hback Eback]].
    assert (Hidx : Z.min (Z.of_nat (length (history st1)) - 1) (Z.max 0 (i - 1) + 1) = i).
    { cbn. lia. }
    rewrite Hidx in Hback, Eback.
    exists back. rewrite Eup. cbn [snd]. fold st1. rewrite Eback. auto.
Qed.

(** X9. The history gives an expression back. After a successful
    [equals] on an expression without equals sign, the up key, and also
    a click on the new line of the list box, put the expression back in
    the entry, stripped of the blanks around it. An expression with an
    equals sign, which can only be a call with a keyword argument, comes
    back cut before the sign. *)
Theorem history_gives_expression_back (st : app) (v : value) (shown : string) :
  str_.strip (entry st) <> EmptyString ->
  SafeEvaluator.eval (degree_mode st) limit (str_.strip (entry st)) = Return v ->
  display.format_number v = Return shown ->
  let back :=
    if String.eqb (str_.before str_.equals_sign (str_.strip (entry st)))
                  (str_.strip (entry st))
    then str_.strip (entry st)
    else str_.strip (str_.before str_.equals_sign (str_.strip (entry st))) in
  entry (snd (history_prev (snd (equals limit st)))) = back
  /\ entry (snd (on_history_select [length (hist_list st)] (snd (equals limit st)))) = back.
Proof.
  intros Hne Hv Hf. cbv zeta.
  rewrite (equals_success_state limit st v shown Hne Hv Hf). cbn [snd].
  rewrite <- (expression_of_line (entry st) shown). cbv zeta.
  set (line := String.append (str_.strip (entry st)) (String.append " = " shown)).
  match goal with |- context [history_prev ?s] => set (st1 := s) end.
  split.
  - assert (Hn : nth_error (history st1)
                   (Z.to_nat (Z.of_nat (length (history st1)) - 1)) = Some line).
    { cbn. rewrite length_app. cbn [length].
      replace (Z.to_nat (Z.of_nat (length (history st) + 1) - 1)) with (length (history st))
        by lia.
      rewrite nth_error_app2 by lia. rewrite Nat.sub_diag. reflexivity. }
    rewrite (history_prev_enters st1 line eq_refl Hn). reflexivity.
  - unfold on_history_select, then_, lift, update. cbn.
    rewrite app_nth2 by lia. rewrite Nat.sub_diag. cbn.
    apply append_empty.
Qed.

(** X10. The memory keys never show a dialog and leave the entry and the
    history alone. What they add to the memory, or take from it, is the
    value of the entry as a float, and zero when the entry cannot be
    evaluated, division by zero included. *)
Theorem memory_keys_swallow_errors (st : app) :
  (dialogs (snd (mem_add limit st)) = dialogs st
   /\ entry (snd (mem_add limit st)) = entry st
   /\ history (snd (mem_add limit st)) = history st)
  /\ (dialogs (snd (mem_sub limit st)) = dialogs st
      /\ entry (snd (mem_sub limit st)) = entry st
      /\ history (snd (mem_sub limit st)) = history st)
  /\ (forall e : exn,
        str_.strip (entry st) <> EmptyString ->
        SafeEvaluator.eval (degree_mode st) limit (str_.strip (entry st)) = Raise e ->
        memory_value (snd (mem_add limit st)) = (memory_value st + 0)%float
        /\ memory_value (snd (mem_sub limit st)) = (memory_value st - 0)%float)
  /\ (forall (v : value) (x : float),
        str_.strip (entry st) <> EmptyString ->
        SafeEvaluator.eval (degree_mode st) limit (str_.strip (entry st)) = Return v ->
        number.as_double v = Return x ->
        memory_value (snd (mem_add limit st)) = (memory_value st + x)%float
        /\ memory_value (snd (mem_sub limit st)) = (memory_value st - x)%float).
Proof.
  assert (Hadd : forall x, _current_value limit st = (Done x, st) ->
            snd (mem_add limit st) =
              set_result_var
                (String.append "Memory: "
                   match display.format_number (VFloat (memory_value st + x)) with
                   | Return shown => shown
                   | Raise _ => EmptyString
                   end)
                (set_memory_value (memory_value st + x) st)).
  { intros x Hx. unfold mem_add, then_, lift, update. cbn [of_outcome]. rewrite Hx. cbn.
    destruct (format_number_float_returns (memory_value st + x)) as [shown ->].
    reflexivity. }
  assert (Hsub : forall x, _current_value limit st = (Done x, st) ->
            snd (mem_sub limit st) =
              set_result_var
                (String.append "Memory: "
                   match display.format_number (VFloat (memory_value st - x)) with
                   | Return shown => shown
                   | Raise _ => EmptyString
                   end)
                (set_memory_value (memory_value st - x) st)).
  { intros x Hx. unfold mem_sub, then_, lift, update. cbn [of_outcome]. rewrite Hx. cbn.
    destruct (format_number_float_returns (memory_value st - x)) as [shown ->].
    reflexivity. }
  destruct (current_value_returns limit st) as [x0 Hx0].
  split; [rewrite (Hadd x0 Hx0); auto |].
  split; [rewrite (Hsub x0 Hx0); auto |].
  split.
  - intros e Hne He. apply String.eqb_neq in Hne.
    assert (Hx : _current_value limit st = (Done 0%float, st)).
    { unfold _current_value, then_, lift, ret, try_, evaluate. cbn.
      rewrite Hne, He. reflexivity. }
    rewrite (Hadd _ Hx), (Hsub _ Hx). auto.
  - intros v x Hne Hv Hx'. apply String.eqb_neq in Hne.
    assert (Hx : _current_value limit st = (Done x, st)).
    { unfold _current_value, then_, lift, ret, try_, evaluate. cbn.
      rewrite Hne, Hv. cbn. rewrite Hx'. reflexivity. }
    rewrite (Hadd _ Hx), (Hsub _ Hx). auto.
Qed.

(** X11. The backspace key undoes a key of one character: after a text of
    one character has been inserted, [backspace] leaves the entry as it
    was before. On an empty entry it does nothing. *)
Theorem backspace_undoes_insert (st : app) (c : Ascii.ascii) :
  entry (snd (backspace (snd (insert_text (String c EmptyString) st)))) = entry st
  /\ (entry st = EmptyString -> backspace st = (Done tt, st)).
Proof.
  split.
  - unfold backspace, insert_text, then_, lift, update, ret. cbn.
    destruct (String.eqb (String.append (entry st) (String c EmptyString)) EmptyString) eqn:E.
    + apply String.eqb_eq in E. destruct (entry st); discriminate.
    + cbn. apply without_last_append.
  - intros He. unfold backspace, then_, lift, update, ret. cbn. rewrite He. reflexivity.
Qed.

End History.

(* ===================================================================== *)
(** * The angle mode *)
(* ===================================================================== *)

Section AngleMode.
Context `{Host}.

Import SafeEvaluator.

(** Two environments that agree on the names an expression looks up give
    the same evaluation. *)
Lemma eval_in_agreeing_environments (depth : nat) :
  forall (node : ast.expr) (env1 env2 : gmap string value),
    (forall n id, walk.reached n node -> whitelist.name_of n = Some id ->
                  env1 !! id = env2 !! id) ->
    _eval depth node env1 = _eval depth node env2.
Proof.
  induction depth as [| d IH]; intros node env1 env2 Hagree; [reflexivity |].
  assert (Hsub : forall c, List.In c (walk.operands node) ->
            _eval d c env1 = _eval d c env2).
  { intros c Hc. apply IH. intros n id Hn Hid.
    apply (Hagree n id); [| exact Hid].
    eapply walk.reached_below; eassumption. }
  destruct node as [ | | l o r | o x | | | | | | | | | | | | | func args keywords | | |
                     | | | | id | | | | v ];
    try reflexivity; cbn [walk.operands] in Hsub.
  - rewrite !_eval_BinOp. destruct (ops (ast.OfOperator o)); [| reflexivity].
    rewrite (Hsub l (or_introl eq_refl)), (Hsub r (or_intror (or_introl eq_refl))).
    reflexivity.
  - rewrite !_eval_UnaryOp. destruct (ops (ast.OfUnaryop o)); [| reflexivity].
    rewrite (Hsub x (or_introl eq_refl)). reflexivity.
  - destruct func as [ | | | | | | | | | | | | | | | | | | | | | | | id | | | | ];
      try reflexivity.
    rewrite !_eval_Call.
    rewrite (Hagree _ id (walk.reached_here _) eq_refl).
    destruct (env2 !! id); [| reflexivity].
    rewrite (comprehension_agree (fun a => _eval d a env1) (fun a => _eval d a env2) args Hsub).
    reflexivity.
  - simpl. rewrite (Hagree _ id (walk.reached_here _) eq_refl). reflexivity.
  - rewrite !_eval_Expr. apply Hsub. left. reflexivity.
Qed.

Lemma build_env_modes_agree (id : string) :
  id <> "sin"%string -> id <> "cos"%string -> id <> "tan"%string ->
  _build_env true !! id = _build_env false !! id.
Proof.
  intros Hs Hc Ht. unfold _build_env.
  rewrite !lookup_insert. repeat case_decide; congruence.
Qed.

(** X12. The angle mode matters to [sin], [cos] and [tan] only: an
    expression in which the walk looks up none of these three names
    gives the same value, or raises the same exception, in degrees and
    in radians. *)
Theorem angle_mode_only_matters_to_trig (limit : nat) (s : string)
    (tree : ast.Expression) :
  ast_parse s = Return tree ->
  (forall n id, walk.reached n (ast.body tree) -> whitelist.name_of n = Some id ->
     id <> "sin"%string /\ id <> "cos"%string /\ id <> "tan"%string) ->
  eval true limit s = eval false limit s.
Proof.
  intros Hp Hnames. unfold eval. rewrite Hp. cbn [py.bind].
  rewrite (eval_in_agreeing_environments limit (ast.body tree)
             (_build_env true) (_build_env false)); [reflexivity |].
  intros n id Hn Hid. destruct (Hnames n id Hn Hid) as (Hs & Hc & Ht).
  apply build_env_modes_agree; assumption.
Qed.

End AngleMode.

(* ===================================================================== *)
(** * Runs of the application *)
(* ===================================================================== *)

Import CalculatorApp.

Lemma equals_changes_nothing_on_failure_witness :
  (str_.strip (entry (sample_more.typed "  ")) = EmptyString
   /\ @equals sample_more.host sample_desktop.desktop 10 (sample_more.typed "  ") =
      (Done tt, sample_more.typed "  "))
  /\ (str_.strip (entry (sample_more.typed "1/0")) <> EmptyString
      /\ @SafeEvaluator.eval sample_more.host true 10 "1/0" =
         Raise (Exc ZeroDivisionError None None)
      /\ @equals sample_more.host sample_desktop.desktop 10 (sample_more.typed "1/0") =
         (Done tt,
          showerror "Math error" (Some "Division by zero"%string)
            (sample_more.typed "1/0")))
  /\ (str_.strip (entry (sample_more.typed "10**5000")) <> EmptyString
      /\ @SafeEvaluator.eval sample_more.host true 10 "10**5000" =
         Return (VInt (10 ^ 5000))
      /\ @display.format_number sample_desktop.desktop (VInt (10 ^ 5000)) =
         Raise (Exc ValueError None None)
      /\ @equals sample_more.host sample_desktop.desktop 10 (sample_more.typed "10**5000") =
         (Done tt, showerror "Error" None (sample_more.typed "10**5000"))).
Proof.
  assert (A1 : str_.strip (entry (sample_more.typed "  ")) = EmptyString)
    by reflexivity.
  assert (B1 : str_.strip (entry (sample_more.typed "1/0")) <> EmptyString)
    by discriminate.
  assert (B2 : @SafeEvaluator.eval sample_more.host
                 (degree_mode (sample_more.typed "1/0")) 10
                 (str_.strip (entry (sample_more.typed "1/0"))) =
               Raise (Exc ZeroDivisionError None None))
    by (vm_compute; reflexivity).
  assert (C1 : str_.strip (entry (sample_more.typed "10**5000")) <> EmptyString)
    by discriminate.
  assert (C2 : @SafeEvaluator.eval sample_more.host
                 (degree_mode (sample_more.typed "10**5000")) 10
                 (str_.strip (entry (sample_more.typed "10**5000"))) =
               Return (VInt (10 ^ 5000)))
    by (vm_compute; reflexivity).
  assert (C3 : @display.format_number sample_desktop.desktop (VInt (10 ^ 5000)) =
               Raise (Exc ValueError None None))
    by (vm_compute; reflexivity).
  split; [split; [exact A1 |] | split; [split; [exact B1 | split; [exact B2 |]]
                                       | split; [exact C1 | split; [exact C2 | split; [exact C3 |]]]]].
  - exact (proj1 (@equals_changes_nothing_on_failure sample_more.host
                    sample_desktop.desktop 10 (sample_more.typed "  ")) A1).
  - exact (proj1 (proj2 (@equals_changes_nothing_on_failure sample_more.host
                           sample_desktop.desktop 10 (sample_more.typed "1/0")))
             _ B1 B2).
  - exact (proj2 (proj2 (@equals_changes_nothing_on_failure sample_more.host
                           sample_desktop.desktop 10 (sample_more.typed "10**5000")))
             _ _ C1 C2 C3).
Defined.

Lemma equals_on_success_witness :
  str_.strip (entry (sample_more.typed " (2 + 3) * -4 // 3 ")) <> EmptyString
  /\ @SafeEvaluator.eval sample_more.host true 10 "(2 + 3) * -4 // 3" = Return (VInt (-7))
  /\ @display.format_number sample_desktop.desktop (VInt (-7)) = Return "-7"%string
  /\ @equals sample_more.host sample_desktop.desktop 10
       (sample_more.typed " (2 + 3) * -4 // 3 ") =
     (Done tt,
      {| is_dark := false;
         degree_mode := true;
         memory_value := 0;
         history := ["(2 + 3) * -4 // 3 = -7"%string];
         history_index := None;
         entry := "-7";
         result_var := "-7";
         hist_list := ["(2 + 3) * -4 // 3 = -7"%string];
         dialogs := [] |}).
Proof.
  assert (H1 : str_.strip (entry (sample_more.typed " (2 + 3) * -4 // 3 ")) <> EmptyString)
    by discriminate.
  assert (H2 : @SafeEvaluator.eval sample_more.host
                 (degree_mode (sample_more.typed " (2 + 3) * -4 // 3 ")) 10
                 (str_.strip (entry (sample_more.typed " (2 + 3) * -4 // 3 "))) =
               Return (VInt (-7)))
    by (vm_compute; reflexivity).
  assert (H3 : @display.format_number sample_desktop.desktop (VInt (-7)) =
               Return "-7"%string)
    by (vm_compute; reflexivity).
  split; [exact H1 | split; [exact H2 | split; [exact H3 |]]].
  exact (@equals_on_success sample_more.host sample_desktop.desktop 10 _ _ _ H1 H2 H3).
Defined.

Lemma reachable_states_are_consistent_witness :
  @reachable sample_more.host sample_desktop.desktop 10
    (snd (@handle sample_more.host sample_desktop.desktop 10 PressEquals
            (snd (@handle sample_more.host sample_desktop.desktop 10 (Press "2**10") init))))
  /\ consistent
       (snd (@handle sample_more.host sample_desktop.desktop 10 PressEquals
               (snd (@handle sample_more.host sample_desktop.desktop 10 (Press "2**10") init))))
  /\ forall ev : event,
       fst (@handle sample_more.host sample_desktop.desktop 10 ev
              (snd (@handle sample_more.host sample_desktop.desktop 10 PressEquals
                      (snd (@handle sample_more.host sample_desktop.desktop 10
                              (Press "2**10") init))))) = Done tt.
Proof.
  assert (H1 : @reachable sample_more.host sample_desktop.desktop 10
                 (snd (@handle sample_more.host sample_desktop.desktop 10 PressEquals
                         (snd (@handle sample_more.host sample_desktop.desktop 10
                                 (Press "2**10") init))))).
  { apply reachable_step. apply reachable_step. apply reachable_init. }
  split; [exact H1 |].
  exact (@reachable_states_are_consistent sample_more.host sample_desktop.desktop 10 _ H1).
Defined.

Lemma history_navigation_witness :
  consistent sample_more.browsing
  /\ history_index sample_more.browsing = Some 1%Z
  /\ entry (snd (history_prev sample_more.browsing)) = "2*e"%string
  /\ history_index (snd (history_prev sample_more.browsing)) = Some 0%Z
  /\ history_index (snd (history_next sample_more.browsing)) = Some 1%Z
  /\ entry (snd (history_next (snd (history_prev sample_more.browsing)))) = "-7 % 3"%string.
Proof.
  assert (H1 : consistent sample_more.browsing).
  { split; [reflexivity |]. cbn. lia. }
  assert (H2 : history_index sample_more.browsing = Some 1%Z) by reflexivity.
  split; [exact H1 | split; [exact H2 |]].
  destruct (history_navigation sample_more.browsing 1 H1 H2)
    as ((l1 & Hl1 & Hp1 & He1) & _ & _ & Hlast & Hround).
  assert (Hl1' : nth_error (history sample_more.browsing) (Z.to_nat (Z.max 0 (1 - 1))) =
                 Some "2*e = 5.43656365692"%string) by reflexivity.
  rewrite Hl1' in Hl1. injection Hl1 as <-.
  destruct (Hround ltac:(lia)) as (l3 & Hl3 & _ & He3).
  assert (Hl3' : nth_error (history sample_more.browsing) (Z.to_nat 1) =
                 Some "-7 % 3 = 2"%string) by reflexivity.
  rewrite Hl3' in Hl3. injection Hl3 as <-.
  split; [exact He1 | split; [exact Hp1 | split; [exact (Hlast eq_refl) | exact He3]]].
Defined.

Lemma history_gives_expression_back_witness :
  str_.strip (entry (sample_more.typed " (2 + 3) * -4 // 3 ")) <> EmptyString
  /\ @SafeEvaluator.eval sample_more.host true 10 "(2 + 3) * -4 // 3" = Return (VInt (-7))
  /\ @display.format_number sample_desktop.desktop (VInt (-7)) = Return "-7"%string
  /\ entry (snd (history_prev
                   (snd (@equals sample_more.host sample_desktop.desktop 10
                           (sample_more.typed " (2 + 3) * -4 // 3 ")))))
     = "(2 + 3) * -4 // 3"%string
  /\ entry (snd (on_history_select [0]
                   (snd (@equals sample_more.host sample_desktop.desktop 10
                           (sample_more.typed " (2 + 3) * -4 // 3 ")))))
     = "(2 + 3) * -4 // 3"%string.
Proof.
  assert (H1 : str_.strip (entry (sample_more.typed " (2 + 3) * -4 // 3 ")) <> EmptyString)
    by discriminate.
  assert (H2 : @SafeEvaluator.eval sample_more.host
                 (degree_mode (sample_more.typed " (2 + 3) * -4 // 3 ")) 10
                 (str_.strip (entry (sample_more.typed " (2 + 3) * -4 // 3 "))) =
               Return (VInt (-7)))
    by (vm_compute; reflexivity).
  assert (H3 : @display.format_number sample_desktop.desktop (VInt (-7)) =
               Return "-7"%string)
    by (vm_compute; reflexivity).
  split; [exact H1 | split; [exact H2 | split; [exact H3 |]]].
  exact (@history_gives_expression_back sample_more.host sample_desktop.desktop 10
           _ _ _ H1 H2 H3).
Defined.

Lemma memory_keys_swallow_errors_witness :
  (str_.strip (entry (sample_more.typed "1/0")) <> EmptyString
   /\ @SafeEvaluator.eval sample_more.host true 10 "1/0" =
      Raise (Exc ZeroDivisionError None None)
   /\ memory_value
        (snd (@mem_add sample_more.host sample_desktop.desktop 10 (sample_more.typed "1/0")))
      = (0 + 0)%float)
  /\ (str_.strip (entry (sample_more.typed "2**10")) <> EmptyString
      /\ @SafeEvaluator.eval sample_more.host true 10 "2**10" = Return (VInt 1024)
      /\ number.as_double (VInt 1024) = Return 1024%float
      /\ memory_value
           (snd (@mem_add sample_more.host sample_desktop.desktop 10
                   (sample_more.typed "2**10")))
         = (0 + 1024)%float).
Proof.
  assert (B1 : str_.strip (entry (sample_more.typed "1/0")) <> EmptyString)
    by discriminate.
  assert (B2 : @SafeEvaluator.eval sample_more.host
                 (degree_mode (sample_more.typed "1/0")) 10
                 (str_.strip (entry (sample_more.typed "1/0"))) =
               Raise (Exc ZeroDivisionError None None))
    by (vm_compute; reflexivity).
  assert (C1 : str_.strip (entry (sample_more.typed "2**10")) <> EmptyString)
    by discriminate.
  assert (C2 : @SafeEvaluator.eval sample_more.host
                 (degree_mode (sample_more.typed "2**10")) 10
                 (str_.strip (entry (sample_more.typed "2**10"))) =
               Return (VInt 1024))
    by (vm_compute; reflexivity).
  assert (C3 : number.as_double (VInt 1024) = Return 1024%float)
    by (vm_compute; reflexivity).
  split; [split; [exact B1 | split; [exact B2 |]]
         | split; [exact C1 | split; [exact C2 | split; [exact C3 |]]]].
  - exact (proj1 (proj1 (proj2 (proj2 (@memory_keys_swallow_errors sample_more.host
                     sample_desktop.desktop 10 (sample_more.typed "1/0")))) _ B1 B2)).
  - exact (proj1 (proj2 (proj2 (proj2 (@memory_keys_swallow_errors sample_more.host
                     sample_desktop.desktop 10 (sample_more.typed "2**10")))) _ _ C1 C2 C3)).
Defined.

Lemma backspace_undoes_insert_witness :
  entry (snd (backspace (snd (insert_text "7" (sample_more.typed "12"))))) = "12"%string
  /\ entry init = EmptyString
  /\ backspace init = (Done tt, init).
Proof.
  assert (H1 : entry init = EmptyString) by reflexivity.
  split; [| split; [exact H1 |]].
  - exact (proj1 (backspace_undoes_insert (sample_more.typed "12") (Ascii.ascii_of_nat 55))).
  - exact (proj2 (backspace_undoes_insert init (Ascii.ascii_of_nat 55)) H1).
Defined.

Lemma angle_mode_only_matters_to_trig_witness :
  sample.parse "2*e" =
    Return {| ast.body := ast.BinOp (sample.num 2) ast.Mult (ast.Name "e") |}
  /\ (forall n id,
        walk.reached n (ast.BinOp (sample.num 2) ast.Mult (ast.Name "e")) ->
        whitelist.name_of n = Some id ->
        id <> "sin"%string /\ id <> "cos"%string /\ id <> "tan"%string)
  /\ @SafeEvaluator.eval sample.host true 2 "2*e" =
     @SafeEvaluator.eval sample.host false 2 "2*e".
Proof.
  assert (H1 : @ast_parse sample.host "2*e" =
               Return {| ast.body := ast.BinOp (sample.num 2) ast.Mult (ast.Name "e") |})
    by reflexivity.
  assert (H2 : forall n id,
             walk.reached n
               (ast.body {| ast.body := ast.BinOp (sample.num 2) ast.Mult (ast.Name "e") |}) ->
             whitelist.name_of n = Some id ->
             id <> "sin"%string /\ id <> "cos"%string /\ id <> "tan"%string).
  { intros n id Hr Hn. cbn [ast.body] in Hr.
    inversion Hr as [| c t Hin Hc]; subst; [discriminate Hn |].
    destruct Hin as [<- | [<- | []]].
    - inversion Hc as [| c' t' Hin' Hc']; subst; [discriminate Hn | destruct Hin'].
    - inversion Hc as [| c' t' Hin' Hc']; subst; [| destruct Hin'].
      injection Hn as <-. repeat split; discriminate. }
  split; [exact H1 | split; [exact H2 |]].
  exact (@angle_mode_only_matters_to_trig sample.host 2 _ _ H1 H2).
Defined.
